(** * TaskMaster: a shallow embedding of [taskmaster.py]

    The program is a Streamlit script: every user interaction re-runs the
    file top to bottom against a MongoDB collection.  The development
    follows the file's own sections: the persisted documents and the
    four driver calls the script makes, the widget state of one run, the
    script itself as a small state-and-exception monad over the
    collection and the screen, and then the properties of the task
    store and of the rendered page. *)

From Stdlib Require Import ZArith NArith List String Ascii Lia Sorted Permutation.
From stdpp Require Import base gmap strings list fin_maps.

Local Open Scope string_scope.
Local Open Scope Z_scope.
Local Open Scope list_scope.

(** ** Python strings

    A [str] is modelled as a [string] whose characters are the code
    points 0..255.  [str.strip()] removes leading and trailing
    characters for which [str.isspace()] holds; below 256 these are
    TAB..CR, FS..US, SPACE, NEL (0x85) and NBSP (0xA0). *)

Definition is_space (c : ascii) : bool :=
  let n := N_of_ascii c in
  ((9 <=? n) && (n <=? 13) || (28 <=? n) && (n <=? 32)
   || (n =? 133) || (n =? 160))%N.

Fixpoint lstrip (s : string) : string :=
  match s with
  | EmptyString => EmptyString
  | String c s' => if is_space c then lstrip s' else s
  end.

Fixpoint rstrip (s : string) : string :=
  match s with
  | EmptyString => EmptyString
  | String c s' =>
      match rstrip s' with
      | EmptyString => if is_space c then EmptyString else String c EmptyString
      | r => String c r
      end
  end.

Definition strip (s : string) : string := rstrip (lstrip s).

(** Truth value of a [str] in a condition: non-empty. *)
Definition truthy (s : string) : bool :=
  match s with EmptyString => false | String _ _ => true end.

(** "Empty or only whitespace", as a property of the characters. *)
Fixpoint all_space (s : string) : bool :=
  match s with
  | EmptyString => true
  | String c s' => is_space c && all_space s'
  end.

(** ** Documents

    The fields the script reads and writes hold strings, datetimes and
    object ids; these are the BSON values of the model.  A datetime is
    the number of milliseconds since the epoch (BSON's own
    representation), an object id its 96-bit number. *)

Inductive value :=
| VStr (s : string)
| VDate (ms : Z)
| VOid (n : N).

Global Instance value_eq_dec : EqDecision value.
Proof. solve_decision. Defined.

(** A document is a Python [dict] keyed by field name. *)
Abbreviation document := (gmap string value).

Inductive exn :=
| KeyError (k : string)
| ValueError (v : value)
| PyMongoError (msg : string).

(** [d[k]]: raises [KeyError] when the key is absent. *)
Definition getitem (d : document) (k : string) : exn + value :=
  match d !! k with
  | Some v => inr v
  | None => inl (KeyError k)
  end.

(** [d.get(k, default)]. *)
Definition get (d : document) (k : string) (default : value) : value :=
  match d !! k with
  | Some v => v
  | None => default
  end.

(** [options.index(v)]: position of the first equal element, or
    [ValueError]. *)
Fixpoint index_from (i : nat) (options : list string) (v : value) : exn + nat :=
  match options with
  | [] => inl (ValueError v)
  | o :: rest => if decide (v = VStr o) then inr i else index_from (S i) rest v
  end.

Definition index (options : list string) (v : value) : exn + nat :=
  index_from 0 options v.

(** ** The collection

    [tasks_collection] is the list of its documents in insertion
    order.  The script queries it only with single-field equality
    filters, [{"Username": u}] and [{"_id": id}]. *)

Definition query : Type := string * value.

Definition matches (q : query) (d : document) : bool :=
  bool_decide (d !! q.1 = Some q.2).

Definition find (q : query) (docs : list document) : list document :=
  List.filter (matches q) docs.

(** *** Sort order

    The server compares values of different kinds by kind first: a
    missing field (null) sorts below strings, strings below object ids,
    object ids below dates.  Strings compare as byte sequences, ids and
    dates as numbers.  The comparison key is the kind's rank followed by
    the payload, compared lexicographically. *)

Fixpoint codes (s : string) : list Z :=
  match s with
  | EmptyString => []
  | String c s' => Z.of_N (N_of_ascii c) :: codes s'
  end.

Definition sort_key (f : option value) : list Z :=
  match f with
  | None => [0]
  | Some (VStr s) => 1 :: codes s
  | Some (VOid n) => [2; Z.of_N n]
  | Some (VDate ms) => [3; ms]
  end.

Fixpoint lex_leb (a b : list Z) : bool :=
  match a, b with
  | [], _ => true
  | _ :: _, [] => false
  | x :: a', y :: b' => (x <? y)%Z || ((x =? y)%Z && lex_leb a' b')
  end.

Definition bson_leb (x y : option value) : bool :=
  lex_leb (sort_key x) (sort_key y).

Definition bson_ltb (x y : option value) : bool :=
  negb (bson_leb y x).

(** Sorting is by insertion: [before x e] says that [x], which came
    earlier, stays in front of [e].  Entries with equal keys keep
    their relative order; the server and pandas promise no order among
    them, the model fixes this one. *)
Fixpoint insert_by {A} (before : A → A → bool) (x : A) (sorted : list A) : list A :=
  match sorted with
  | [] => [x]
  | e :: rest =>
      if before x e then x :: e :: rest
      else e :: insert_by before x rest
  end.

Definition sort_by {A} (before : A → A → bool) (l : list A) : list A :=
  foldr (insert_by before) [] l.

(** [cursor.sort(field, -1)]: descending. *)
Definition sort_desc (field : string) (docs : list document) : list document :=
  sort_by (λ d e, bson_leb (e !! field) (d !! field)) docs.

(** *** Writes *)

Definition oid_of (d : document) : N :=
  match d !! "_id" with
  | Some (VOid n) => n
  | _ => 0%N
  end.

(** The driver gives a document without [_id] a new [ObjectId()],
    distinct from every id in the collection. *)
Definition fresh_oid (docs : list document) : N :=
  N.succ (foldr N.max 0%N (oid_of <$> docs)).

Definition insert_one (d : document) (docs : list document) : list document :=
  docs ++ [<["_id" := VOid (fresh_oid docs)]> d].

(** [update_one(q, {"$set": updates})]: the first matching document
    gets the fields of [updates]; the others are not touched. *)
Fixpoint update_one (q : query) (updates : document) (docs : list document)
  : list document :=
  match docs with
  | [] => []
  | d :: rest =>
      if matches q d then (updates ∪ d) :: rest
      else d :: update_one q updates rest
  end.

(** [delete_one(q)]: the first matching document is removed. *)
Fixpoint delete_one (q : query) (docs : list document) : list document :=
  match docs with
  | [] => []
  | d :: rest =>
      if matches q d then rest else d :: delete_one q rest
  end.

(** ** Pure Python computations that may raise *)

Definition raising (A : Type) : Type := exn + A.

Global Instance raising_ret : MRet raising := λ A a, inr a.
Global Instance raising_bind : MBind raising :=
  λ A B f r, match r with inl e => inl e | inr a => f a end.

(** ** Widget state of one run

    The option lists are the script's constants.  A select box or a
    multiselect hands back entries of its option list, so a selection
    is a position in the list, written as a constructor. *)

Definition STATUS_OPTIONS : list string := ["Pending"; "In Progress"; "Completed"].
Definition PRIORITY_OPTIONS : list string := ["High"; "Medium"; "Low"].

Inductive status_opt := Pending | InProgress | Completed.
Inductive priority_opt := High | Medium | Low.

Definition status_label (s : status_opt) : string :=
  match s with
  | Pending => "Pending"
  | InProgress => "In Progress"
  | Completed => "Completed"
  end.

Definition priority_label (p : priority_opt) : string :=
  match p with
  | High => "High"
  | Medium => "Medium"
  | Low => "Low"
  end.

(** At most one form button is pressed in a run.  A row's form is keyed
    by the task's [_id]; the pressed button carries the values of the
    widgets of its form. *)
Inductive click :=
| NoClick
| AddTask (task_name : string) (task_priority : priority_opt) (task_due_date : Z)
| Save (row : value) (new_task_name : string)
       (new_status : status_opt) (new_priority : priority_opt)
| Delete (row : value).

Record widgets := Widgets {
  username : string;
  filter_status : list status_opt;
  pressed : click
}.

(** ** What the run cannot control

    Every driver call may raise; [faults] gives, for each kind of call,
    the message of the exception it raises in this run, if any (each
    kind is called at most once per run).  [utcnow] is the clock, in
    milliseconds.  [parse_date] is pandas' date parser on strings.
    [representable] tells which datetimes, in milliseconds since the
    epoch, the installed pandas can hold in a datetime column: the
    requirements do not pin a version, pandas 2 stores nanoseconds in
    64 bits ([datetime64_ns] below) and later versions hold more. *)

Inductive op := OpFind | OpInsert | OpUpdate | OpDelete.

Record env := Env {
  faults : op → option string;
  utcnow : Z;
  parse_date : string → option Z;
  representable : Z → bool
}.

(** The range of [datetime64[ns]], [pd.Timestamp.min] to
    [pd.Timestamp.max]: 1677-09-21 to 2262-04-11. *)
Definition datetime64_ns (ms : Z) : bool :=
  (-9223372036854775807 <=? ms * 1000000) && (ms * 1000000 <=? 9223372036854775807).

(** ** The screen *)

(** The pieces of an f-string. *)
Inductive part :=
| Txt (s : string)
| Fmt (v : value)
| FmtExn (e : exn).

Record row (D : Type) := Row {
  Task : value;
  Priority : value;
  DueDate : D
}.
Arguments Row {D} _ _ _.
Arguments Task {D} _.
Arguments Priority {D} _.
Arguments DueDate {D} _.

Inductive element :=
| Header (s : string)
| Title (s : string)
| Markdown (text : list part)
| Subheader (s : string)
| Info (s : string)
| Warning (s : string)
| Error (text : list part)
| Toast (text : list part)
| Metric (label : string) (n : Z)
| PlotlyChart (status_counts : list (value * nat))
| Dataframe (pending_df : list (row (option Z)))
| TaskForm (key task : value) (status_index priority_index : nat).

(** ** The script monad

    A run threads the collection, the screen built so far and the log
    of driver calls.  It ends normally, by [st.rerun()], or by an
    exception nobody caught; the collection keeps whatever was written
    before. *)

Inductive call :=
| CFind (q : query) (sort_field : string)
| CInsert (d : document)
| CUpdate (q : query) (updates : document)
| CDelete (q : query).

Record world := World {
  coll : list document;
  screen : list element;
  calls : list call
}.

Inductive halt := Rerun | Uncaught (e : exn).

Inductive step (A : Type) :=
| Next (a : A) (w : world)
| Halt (h : halt) (w : world).
Arguments Next {A} _ _.
Arguments Halt {A} _ _.

Definition script (A : Type) : Type := world → step A.

Global Instance script_ret : MRet script := λ A a w, Next a w.
Global Instance script_bind : MBind script :=
  λ A B k m w, match m w with Next a w' => k a w' | Halt h w' => Halt h w' end.

Definition raise {A} (e : exn) : script A := λ w, Halt (Uncaught e) w.

Definition lift {A} (r : raising A) : script A :=
  match r with inl e => raise e | inr a => mret a end.

(** [st.rerun()] *)
Definition rerun : script unit := λ w, Halt Rerun w.

(** [try: body / except Exception as e: handler e] *)
Definition try_except {A} (body : script A) (handler : exn → script A) : script A :=
  λ w, match body w with
       | Halt (Uncaught e) w' => handler e w'
       | r => r
       end.

Definition show (e : element) : script unit :=
  λ w, Next tt (World (coll w) (screen w ++ [e]) (calls w)).

(** A driver call: logged, then either it raises or it acts on the
    collection. *)
Definition mongo {A} (E : env) (o : op) (c : call)
    (f : list document → A * list document) : script A :=
  λ w, let log := calls w ++ [c] in
       match faults E o with
       | Some msg => Halt (Uncaught (PyMongoError msg)) (World (coll w) (screen w) log)
       | None => let r := f (coll w) in Next r.1 (World r.2 (screen w) log)
       end.

(** The four calls the script makes on [tasks_collection]. *)

Definition insert_task (E : env) (data : document) : script unit :=
  mongo E OpInsert (CInsert data) (λ docs, (tt, insert_one data docs)).

Definition list_tasks (E : env) (q : query) (sort_field : string)
  : script (list document) :=
  mongo E OpFind (CFind q sort_field)
    (λ docs, (sort_desc sort_field (find q docs), docs)).

Definition update_task (E : env) (id : value) (upd : document) : script unit :=
  mongo E OpUpdate (CUpdate ("_id", id) upd)
    (λ docs, (tt, update_one ("_id", id) upd docs)).

Definition delete_task (E : env) (id : value) : script unit :=
  mongo E OpDelete (CDelete ("_id", id))
    (λ docs, (tt, delete_one ("_id", id) docs)).

Fixpoint for_each {A} (body : A → script unit) (l : list A) : script unit :=
  match l with
  | [] => mret tt
  | x :: rest => body x;; for_each body rest
  end.

(** ** The script, section by section

    Icons and layout arguments are left out; the connection set-up of
    section 2 has succeeded when the model starts. *)

(** [datetime.combine(d, datetime.min.time())], for a date given as
    days since the epoch. *)
Definition combine (days : Z) : Z := days * 86400000.

Definition task_data (E : env) (W : widgets)
    (task_name : string) (task_priority : priority_opt) (task_due_date : Z)
  : document :=
  {[ "Username" := VStr (strip (username W));
     "Task" := VStr (strip task_name);
     "Status" := VStr "Pending";
     "Priority" := VStr (priority_label task_priority);
     "DueDate" := VDate (combine task_due_date);
     "CreatedAt" := VDate (utcnow E) ]}.

(** *** 3. Sidebar: add a new task *)
Definition sidebar (E : env) (W : widgets) : script unit :=
  show (Header "User");;
  if truthy (strip (username W)) then
    show (Header "Add a New Task");;
    match pressed W with
    | AddTask task_name task_priority task_due_date =>
        if negb (truthy (strip task_name)) then
          show (Warning "Please enter a task name.")
        else
          insert_task E (task_data E W task_name task_priority task_due_date);;
          show (Toast [Txt "Task '"; Fmt (VStr task_name); Txt "' added!"])
    | _ => mret tt
    end
  else mret tt.

(** *** 4. Header and overview *)
Definition page_header (W : widgets) : script unit :=
  show (Title "TaskMaster Dashboard");;
  show (Markdown
          (if truthy (strip (username W))
           then [Txt "Managing tasks for: **"; Fmt (VStr (username W)); Txt "**"]
           else [Txt "Enter your full name in the sidebar to begin."])).

Definition owner_query (W : widgets) : query :=
  ("Username", VStr (strip (username W))).

Definition fetch_tasks (E : env) (W : widgets) : script (list document) :=
  if truthy (strip (username W)) then
    try_except
      (list_tasks E (owner_query W) "CreatedAt")
      (λ e, show (Error [Txt "Failed to fetch tasks: "; FmtExn e]);; mret [])
  else
    show (Info "Please enter your name in the sidebar to load your tasks.");;
    mret [].

(** [sum(1 for t in all_tasks if t["Status"] == "Completed")] *)
Fixpoint count_completed (all_tasks : list document) : raising nat :=
  match all_tasks with
  | [] => mret 0%nat
  | t :: rest =>
      s ← getitem t "Status";
      n ← count_completed rest;
      mret (if decide (s = VStr "Completed") then S n else n)
  end.

Definition kpi (all_tasks : list document) : script (Z * Z) :=
  let total_tasks := Z.of_nat (length all_tasks) in
  completed ← lift (count_completed all_tasks);
  let completed_tasks := Z.of_nat completed in
  let pending_tasks := total_tasks - completed_tasks in
  show (Subheader "Project Overview");;
  show (Metric "Total Tasks" total_tasks);;
  show (Metric "Completed" completed_tasks);;
  show (Metric "Pending" pending_tasks);;
  mret (total_tasks, pending_tasks).

(** *** 5. Visualization and data display *)

(** [pd.Series(l).value_counts()]: one entry per distinct value, the
    most frequent first. *)
Fixpoint tally (v : value) (counts : list (value * nat)) : list (value * nat) :=
  match counts with
  | [] => [(v, 1%nat)]
  | (u, n) :: rest =>
      if decide (u = v) then (u, S n) :: rest else (u, n) :: tally v rest
  end.

Definition value_counts (l : list value) : list (value * nat) :=
  sort_by (λ a b, (b.2 <=? a.2)%nat) (foldl (λ acc v, tally v acc) [] l).

Definition status_chart (all_tasks : list document) (total_tasks : Z) : script unit :=
  show (Subheader "Task Status Distribution");;
  if 0 <? total_tasks then
    statuses ← lift (mapM (λ t, getitem t "Status") all_tasks);
    show (PlotlyChart (value_counts statuses))
  else show (Info "Add a task to see the status distribution chart.").

(** The list comprehension that feeds [pd.DataFrame]. *)
Fixpoint pending_rows (all_tasks : list document) : raising (list (row value)) :=
  match all_tasks with
  | [] => mret []
  | t :: rest =>
      s ← getitem t "Status";
      if decide (s ≠ VStr "Completed") then
        name ← getitem t "Task";
        rows ← pending_rows rest;
        mret (Row name (get t "Priority" (VStr "Medium"))
                       (get t "DueDate" (VStr "N/A")) :: rows)
      else pending_rows rest
  end.

(** [pd.to_datetime(_, errors='coerce')] on one cell; [None] is NaT.
    A datetime outside the range of the column's type is coerced to
    NaT like a string that does not parse. *)
Definition to_datetime (E : env) (v : value) : option Z :=
  match v with
  | VDate ms => if representable E ms then Some ms else None
  | VStr s => parse_date E s
  | VOid _ => None
  end.

(** Ascending order of the date column, NaT last. *)
Definition due_leb (a b : option Z) : bool :=
  match a, b with
  | Some x, Some y => x <=? y
  | _, None => true
  | None, Some _ => false
  end.

Definition dropna (df : list (row (option Z))) : list (row (option Z)) :=
  List.filter (λ r, bool_decide (is_Some (DueDate r))) df.

Definition sort_values (df : list (row (option Z))) : list (row (option Z)) :=
  sort_by (λ r s, due_leb (DueDate r) (DueDate s)) df.

(** A frame built from no rows has no columns, so selecting
    ["DueDate"] from it raises; the script builds the frame only when
    some task is pending. *)
Definition pending_df (E : env) (all_tasks : list document)
  : raising (list (row (option Z))) :=
  rows ← pending_rows all_tasks;
  match rows with
  | [] => inl (KeyError "DueDate")
  | _ :: _ =>
      let df := (λ r, Row (Task r) (Priority r) (to_datetime E (DueDate r))) <$> rows in
      mret (sort_values (dropna df))
  end.

Definition deadlines (E : env) (W : widgets)
    (all_tasks : list document) (pending_tasks : Z) : script unit :=
  show (Subheader "Upcoming Deadlines");;
  if truthy (strip (username W)) && (0 <? pending_tasks) then
    df ← lift (pending_df E all_tasks);
    show (Dataframe df)
  else if truthy (strip (username W)) then
    show (Info "No pending tasks with deadlines.")
  else mret tt.

(** *** 6. Editable task list *)

(** [t["Status"] in filter_status] *)
Definition selected (filter_status : list status_opt) (s : value) : bool :=
  existsb (λ o, bool_decide (s = VStr (status_label o))) filter_status.

Fixpoint filtered_tasks (filter_status : list status_opt)
    (all_tasks : list document) : raising (list document) :=
  match all_tasks with
  | [] => mret []
  | t :: rest =>
      s ← getitem t "Status";
      kept ← filtered_tasks filter_status rest;
      mret (if selected filter_status s then t :: kept else kept)
  end.

Definition updates (new_task_name : string)
    (new_status : status_opt) (new_priority : priority_opt) : document :=
  {[ "Task" := VStr (strip new_task_name);
     "Status" := VStr (status_label new_status);
     "Priority" := VStr (priority_label new_priority) ]}.

(** One pass of the loop body: the row's widgets, then its buttons. *)
Definition task_form (E : env) (W : widgets) (task : document) : script unit :=
  id ← lift (getitem task "_id");
  name ← lift (getitem task "Task");
  status ← lift (getitem task "Status");
  status_index ← lift (index STATUS_OPTIONS status);
  priority_index ← lift (index PRIORITY_OPTIONS (get task "Priority" (VStr "Medium")));
  show (TaskForm id name status_index priority_index);;
  match pressed W with
  | Save row new_task_name new_status new_priority =>
      if decide (row = id) then
        update_task E id (updates new_task_name new_status new_priority);;
        show (Toast [Txt "Task updated!"]);;
        rerun
      else mret tt
  | Delete row =>
      if decide (row = id) then
        delete_task E id;;
        show (Toast [Txt "Task '"; Fmt name; Txt "' deleted."]);;
        rerun
      else mret tt
  | _ => mret tt
  end.

Definition manage (E : env) (W : widgets) (all_tasks : list document) : script unit :=
  show (Subheader "Manage Your Tasks");;
  match all_tasks with
  | _ :: _ =>
      rows ← lift (filtered_tasks (filter_status W) all_tasks);
      for_each (task_form E W) rows
  | [] => show (Info "No tasks found. Add your first task from the sidebar!")
  end.

(** Everything below the fetch. *)
Definition dashboard (E : env) (W : widgets) (all_tasks : list document) : script unit :=
  '(total_tasks, pending_tasks) ← kpi all_tasks;
  status_chart all_tasks total_tasks;;
  deadlines E W all_tasks pending_tasks;;
  manage E W all_tasks.

(** One run of the script. *)
Definition app (E : env) (W : widgets) : script unit :=
  sidebar E W;;
  page_header W;;
  all_tasks ← fetch_tasks E W;
  dashboard E W all_tasks.

Definition run (E : env) (W : widgets) (docs : list document) : step unit :=
  app E W (World docs [] []).

(** ** Vocabulary of the statements *)

(** The world a run stopped in, however it stopped. *)
Definition final {A} (s : step A) : world :=
  match s with Next _ w => w | Halt _ w => w end.

(** The run was ended by an exception nobody caught. *)
Definition crashed {A} (s : step A) : Prop :=
  ∃ e w, s = Halt (Uncaught e) w.

Definition owner_is (o : string) (d : document) : Prop :=
  d !! "Username" = Some (VStr o).

Global Instance owner_is_dec o d : Decision (owner_is o d) :=
  decide (d !! "Username" = Some (VStr o)).

(** [a] was created no earlier than [b], in the server's order. *)
Definition created_desc (a b : document) : Prop :=
  bson_leb (b !! "CreatedAt") (a !! "CreatedAt") = true.

Definition listing (o : string) (docs : list document) : list document :=
  sort_desc "CreatedAt" (find ("Username", VStr o) docs).

(** [d] is strictly older than a task created at [now]. *)
Definition created_before (now : Z) (d : document) : Prop :=
  bson_ltb (d !! "CreatedAt") (Some (VDate now)) = true.

(** The fields the row form can change. *)
Definition mutable_fields : list string := ["Task"; "Status"; "Priority"].

(** [d'] is [d] except possibly for the mutable fields, and is [d]
    itself unless [d] is the document with the given id. *)
Definition edited (id : value) (d d' : document) : Prop :=
  (∀ k, k ∉ mutable_fields → d' !! k = d !! k) ∧
  (d !! "_id" ≠ Some id → d' = d).

(** A relation between the world before and after holds across a
    script, however the script ends. *)
Definition keeps (R : relation world) {A} (m : script A) : Prop :=
  ∀ w, R w (final (m w)).

Definition is_insert (c : call) : bool :=
  match c with CInsert _ => true | _ => false end.

(** What the deadlines table owes one task: a row when the task is not
    completed and its due date is there and parses, nothing otherwise. *)
Definition upcoming (E : env) (t : document) : option (row (option Z)) :=
  status ← t !! "Status";
  title ← t !! "Task";
  due ← t !! "DueDate";
  ms ← to_datetime E due;
  if decide (status = VStr "Completed") then None
  else Some (Row title (get t "Priority" (VStr "Medium")) (Some ms)).

(** Both rows carry a date, the first no later than the second. *)
Definition due_le (r s : row (option Z)) : Prop :=
  ∃ x y, DueDate r = Some x ∧ DueDate s = Some y ∧ x ≤ y.

(** A script that always reaches its end, with result [a], and leaves
    the collection alone. *)
Definition yields {A} (m : script A) (a : A) : Prop :=
  ∀ w, ∃ w', m w = Next a w' ∧ coll w' = coll w.

(** A document every widget of the page can be built from, whatever
    its status is. *)
Definition renderable (t : document) : Prop :=
  is_Some (t !! "_id") ∧ is_Some (t !! "Task") ∧ is_Some (t !! "Status") ∧
  (t !! "Priority" = None ∨
   ∃ p, t !! "Priority" = Some (VStr (priority_label p))).

(** ** Sample data for the worked instances *)

Module Sample.
Definition quiet : env :=
  Env (λ _, None) 1717243200000 (λ _, None) datetime64_ns.

Definition find_down : env :=
  Env (λ o, match o with OpFind => Some "timed out" | _ => None end)
      1717243200000 (λ _, None) datetime64_ns.

Definition report : document :=
  {[ "_id" := VOid 1; "Username" := VStr "Alex";
     "Task" := VStr "Write report"; "Status" := VStr "Pending";
     "Priority" := VStr "High"; "DueDate" := VDate 1717200000000;
     "CreatedAt" := VDate 1717000000000 ]}.

Definition slides : document :=
  {[ "_id" := VOid 2; "Username" := VStr "Alex";
     "Task" := VStr "Slides"; "Status" := VStr "Completed";
     "Priority" := VStr "Low"; "DueDate" := VDate 1717100000000;
     "CreatedAt" := VDate 1717100000000 ]}.

Definition groceries : document :=
  {[ "_id" := VOid 3; "Username" := VStr "Sam";
     "Task" := VStr "Groceries"; "Status" := VStr "In Progress";
     "Priority" := VStr "Medium"; "DueDate" := VDate 1717300000000;
     "CreatedAt" := VDate 1717200000000 ]}.

(** A document written by some other client: a status outside the
    option list, no priority, no due date. *)
Definition blocked : document :=
  {[ "_id" := VOid 4; "Username" := VStr "Alex";
     "Task" := VStr "Wait for review"; "Status" := VStr "Blocked";
     "CreatedAt" := VDate 1717050000000 ]}.

Definition store : list document := [report; slides; groceries].

Definition alex (c : click) : widgets :=
  Widgets " Alex " [Pending; InProgress; Completed] c.

Definition blank : world := World store [] [].
End Sample.


(** ** Connection set-up (section 2 of the script)

    [init_connection] is cached per process: its body runs until it
    has returned a client once.  The ping and the one-time toast run
    on every run; [st.session_state] is the set of keys of the browser
    session.  [st.stop()] ends the run before the page is built. *)

Inductive connect_error :=
| ConnectionFailure (msg : string)
| Unexpected (e : exn).

Record server := Server {
  connect_fault : option connect_error;
  ping_fault : option string
}.

Record session := Session {
  client_cached : bool;
  session_state : gset string
}.

Inductive boot :=
| Stopped (shown : list element) (S : session)
| Connected (shown : list element) (S : session).

Definition init_connection (srv : server) (S : session)
  : list element + session :=
  if client_cached S then inr S
  else
    match connect_fault srv with
    | Some (ConnectionFailure msg) =>
        inl [Error [Txt "Could not connect to MongoDB: ";
                    FmtExn (PyMongoError msg)]]
    | Some (Unexpected e) =>
        inl [Error [Txt "An unexpected error occurred: "; FmtExn e]]
    | None => inr (Session true (session_state S))
    end.

Definition startup (srv : server) (S : session) : boot :=
  match init_connection srv S with
  | inl shown => Stopped shown S
  | inr S1 =>
      match ping_fault srv with
      | Some msg =>
          Stopped [Error [Txt "Database is not responsive: ";
                          FmtExn (PyMongoError msg)]] S1
      | None =>
          if decide ("db_connection_success" ∈ session_state S1) then
            Connected [] S1
          else
            Connected [Toast [Txt "Database connection successful!"]]
              (Session (client_cached S1)
                 ({["db_connection_success"]} ∪ session_state S1))
      end
  end.

(** The whole file: set-up, then the page on the screen the set-up
    left. *)
Inductive ended :=
| AtStartup (shown : list element)
| Page (s : step unit).

Definition main (srv : server) (E : env) (W : widgets)
    (S : session) (docs : list document) : ended * session :=
  match startup srv S with
  | Stopped shown S' => (AtStartup shown, S')
  | Connected shown S' => (Page (app E W (World docs shown [])), S')
  end.

(** The collection after a sequence of runs, each with its own
    environment and widget state. *)
Fixpoint runs (docs : list document) (inputs : list (env * widgets))
  : list document :=
  match inputs with
  | [] => docs
  | (E, W) :: rest => runs (coll (final (run E W docs))) rest
  end.

(** ** More vocabulary *)

Definition is_write (c : call) : bool :=
  match c with CFind _ _ => false | _ => true end.

(** The collection is the same in both worlds. *)
Definition same_coll : relation world := λ w w', coll w' = coll w.

(** A script that only puts elements on the screen and returns [a]. *)
Definition quiet {A} (m : script A) (a : A) : Prop :=
  ∀ w, ∃ els, m w = Next a (World (coll w) (screen w ++ els) (calls w)).

(** A script that leaves the collection alone unless it ends by
    [st.rerun()] right after applying [change] to it. *)
Definition writes_then_reruns (change : list document → list document)
    {A} (m : script A) : Prop :=
  ∀ w, match m w with
       | Next _ w' => coll w' = coll w
       | Halt h w' =>
           coll w' = coll w ∨ (h = Rerun ∧ coll w' = change (coll w))
       end.

(** The only exception that can end the run is one of the driver's. *)
Definition driver_only {A} (s : step A) : Prop :=
  ∀ e w, s = Halt (Uncaught e) w → ∃ msg, e = PyMongoError msg.

Definition guarded {A} (m : script A) : Prop :=
  ∀ w, driver_only (m w).

(** [t["Status"] in filter_status], false when there is no status. *)
Definition status_selected (fs : list status_opt) (t : document) : bool :=
  match t !! "Status" with
  | Some s => selected fs s
  | None => false
  end.

Definition is_completed (t : document) : bool :=
  bool_decide (t !! "Status" = Some (VStr "Completed")).

(** The shape of the documents the script itself writes. *)
Definition schema (d : document) : Prop :=
  (∃ n, d !! "_id" = Some (VOid n)) ∧
  (∃ o, d !! "Username" = Some (VStr o) ∧ truthy o = true ∧ strip o = o) ∧
  (∃ s, d !! "Task" = Some (VStr s) ∧ strip s = s) ∧
  (∃ o, d !! "Status" = Some (VStr (status_label o))) ∧
  (∃ p, d !! "Priority" = Some (VStr (priority_label p))) ∧
  (∃ days, d !! "DueDate" = Some (VDate (combine days))) ∧
  (∃ ms, d !! "CreatedAt" = Some (VDate ms)).


(** How often [v] occurs in [l]. *)
Definition occurrences (v : value) (l : list value) : nat :=
  length (List.filter (λ x, bool_decide (x = v)) l).

(** The count listed for [v], 0 when [v] is not listed. *)
Fixpoint count_for (v : value) (counts : list (value * nat)) : nat :=
  match counts with
  | [] => 0
  | (u, n) :: rest => if decide (u = v) then n else count_for v rest
  end.

Definition ids_distinct (docs : list document) : Prop :=
  NoDup (oid_of <$> docs).

Definition no_leading_space (s : string) : Prop :=
  match s with
  | EmptyString => True
  | String c _ => is_space c = false
  end.

Fixpoint last_char (s : string) : option ascii :=
  match s with
  | EmptyString => None
  | String c EmptyString => Some c
  | String _ s' => last_char s'
  end.

Definition no_trailing_space (s : string) : Prop :=
  match last_char s with
  | None => True
  | Some c => is_space c = false
  end.

(** ** More sample data *)

Module Demo.
Definition fresh_session : session := Session false ∅.

Definition up : server := Server None None.

Definition unreachable : server :=
  Server (Some (ConnectionFailure "connection refused")) None.

Definition all_options : list status_opt := [Pending; InProgress; Completed].

Definition nobody (c : click) : widgets := Widgets "   " all_options c.

Definition delete_down : env :=
  Env (λ o, match o with OpDelete => Some "timed out" | _ => None end)
      1717243200000 (λ _, None) datetime64_ns.

(** A short session of Alex's: two tasks added, the second saved as
    completed, the first deleted, a task added again. *)
Definition at_ (now : Z) : env := Env (λ _, None) now (λ _, None) datetime64_ns.

Definition session_inputs : list (env * widgets) :=
  [(at_ 1717000000000, Sample.alex (AddTask " Write report " High 19875));
   (at_ 1717000060000, Sample.alex (AddTask "Slides" Low 19876));
   (at_ 1717000120000, Sample.alex (Save (VOid 2) "Slides " Completed High));
   (at_ 1717000180000, Sample.alex (Delete (VOid 1)));
   (at_ 1717000240000, Sample.alex (AddTask "Groceries" Medium 19877))].
End Demo.

(** * Properties *)

(** ** Strings *)

Lemma lstrip_empty s : lstrip s = "" ↔ all_space s = true.
Proof.
  induction s as [|c s IH]; simpl; [done|].
  destruct (is_space c); simpl; [done|]. split; discriminate.
Qed.

Lemma rstrip_empty s : rstrip s = "" ↔ all_space s = true.
Proof.
  induction s as [|c s IH]; simpl; [done|].
  destruct (rstrip s) eqn:Hr.
  - destruct (is_space c); simpl; [tauto|]. split; discriminate.
  - split; [discriminate|]. intros [_ H]%andb_prop.
    apply IH in H. discriminate.
Qed.

Lemma all_space_lstrip s : all_space (lstrip s) = all_space s.
Proof.
  induction s as [|c s IH]; simpl; [done|].
  destruct (is_space c) eqn:Hc; simpl; [done|]. by rewrite Hc.
Qed.

Lemma strip_empty s : strip s = "" ↔ all_space s = true.
Proof. unfold strip. by rewrite rstrip_empty, all_space_lstrip. Qed.

Lemma truthy_strip s : truthy (strip s) = negb (all_space s).
Proof.
  destruct (all_space s) eqn:Hs.
  - apply strip_empty in Hs. by rewrite Hs.
  - destruct (strip s) eqn:Hstrip; [|done].
    apply strip_empty in Hstrip. congruence.
Qed.

Example strip_inner : strip "  write  report	 " = "write  report".
Proof. reflexivity. Qed.

Example strip_blank : strip " 	 " = "".
Proof. reflexivity. Qed.

Example index_medium : index PRIORITY_OPTIONS (VStr "Medium") = inr 1%nat.
Proof. reflexivity. Qed.

Example index_unknown :
  index STATUS_OPTIONS (VStr "Blocked") = inl (ValueError (VStr "Blocked")).
Proof. reflexivity. Qed.

(** ** Sorting by insertion *)

Section Sorting.
Context {A : Type} (before : A → A → bool).

Lemma insert_by_perm x l : Permutation (insert_by before x l) (x :: l).
Proof.
  induction l as [|e l IH]; simpl; [done|].
  destruct (before x e); [done|].
  rewrite IH. apply perm_swap.
Qed.

Lemma sort_by_perm l : Permutation (sort_by before l) l.
Proof.
  induction l as [|x l IH]; simpl; [done|].
  unfold sort_by in *. simpl. rewrite insert_by_perm. by constructor.
Qed.

Lemma sort_by_elem x l : x ∈ sort_by before l ↔ x ∈ l.
Proof. by rewrite (sort_by_perm l). Qed.

(** An entry that must come before everything sorted so far and is
    appended last ends up in front. *)
Lemma sort_by_snoc_first l d :
  Forall (λ x, before x d = false) l →
  sort_by before (l ++ [d]) = d :: sort_by before l.
Proof.
  induction 1 as [|x l Hx _ IH]; [done|].
  unfold sort_by in *. simpl. rewrite IH. simpl. by rewrite Hx.
Qed.

Hypothesis before_total : ∀ x y, before x y = false → before y x = true.

Lemma insert_by_sorted x l :
  Sorted (λ a b, before a b = true) l →
  Sorted (λ a b, before a b = true) (insert_by before x l).
Proof.
  induction 1 as [|e l Hl IH He]; simpl.
  - by repeat constructor.
  - destruct (before x e) eqn:Hxe.
    + repeat constructor; done.
    + constructor; [done|].
      destruct He as [|e' l' He]; simpl.
      * constructor. by apply before_total.
      * destruct (before x e'); constructor; [by apply before_total|done].
Qed.

Lemma sort_by_sorted l : Sorted (λ a b, before a b = true) (sort_by before l).
Proof.
  induction l as [|x l IH]; [constructor|].
  apply insert_by_sorted, IH.
Qed.

Hypothesis before_trans :
  ∀ x y z, before x y = true → before y z = true → before x z = true.

Lemma sort_by_strongly_sorted l :
  StronglySorted (λ a b, before a b = true) (sort_by before l).
Proof.
  apply Sorted_StronglySorted; [|apply sort_by_sorted].
  intros x y z. apply before_trans.
Qed.
End Sorting.

(** ** The server's order is a total preorder *)

Lemma lex_leb_total a b : lex_leb a b = false → lex_leb b a = true.
Proof.
  revert b. induction a as [|x a IH]; intros [|y b]; simpl; try done.
  intros [Hlt H]%orb_false_elim.
  apply Z.ltb_ge in Hlt.
  destruct (Z.ltb_spec y x); [done|]. simpl.
  assert (x = y) as -> by lia. rewrite Z.eqb_refl in *. simpl in *.
  by apply IH.
Qed.

Lemma lex_leb_trans a b c :
  lex_leb a b = true → lex_leb b c = true → lex_leb a c = true.
Proof.
  revert b c. induction a as [|x a IH]; intros [|y b] [|z c]; simpl; try done.
  intros [Hxy|[Hxy Hab]%andb_prop]%orb_prop [Hyz|[Hyz Hbc]%andb_prop]%orb_prop;
    repeat match goal with
           | H : (_ <? _)%Z = true |- _ => apply Z.ltb_lt in H
           | H : (_ =? _)%Z = true |- _ => apply Z.eqb_eq in H
           end; apply orb_true_iff.
  - left. apply Z.ltb_lt. lia.
  - left. apply Z.ltb_lt. lia.
  - left. apply Z.ltb_lt. lia.
  - right. subst. rewrite Z.eqb_refl. simpl. eauto.
Qed.

Lemma bson_leb_total x y : bson_leb x y = false → bson_leb y x = true.
Proof. apply lex_leb_total. Qed.

Lemma bson_leb_trans x y z :
  bson_leb x y = true → bson_leb y z = true → bson_leb x z = true.
Proof. apply lex_leb_trans. Qed.

Lemma bson_leb_dates a b :
  bson_leb (Some (VDate a)) (Some (VDate b)) = (a <=? b).
Proof.
  unfold bson_leb. simpl.
  destruct (Z.ltb_spec a b), (Z.eqb_spec a b), (Z.leb_spec a b); simpl; lia.
Qed.

Lemma sort_desc_strongly_sorted field docs :
  StronglySorted (λ a b, bson_leb (b !! field) (a !! field) = true)
    (sort_desc field docs).
Proof.
  apply (sort_by_strongly_sorted (λ d e, bson_leb (e !! field) (d !! field))).
  - intros x y. apply bson_leb_total.
  - intros x y z Hxy Hyz. by apply (bson_leb_trans _ (y !! field)).
Qed.

(** ** Reading the collection *)

Lemma find_elem q docs t :
  t ∈ find q docs ↔ t ∈ docs ∧ t !! q.1 = Some q.2.
Proof.
  unfold find, matches. rewrite !list_elem_of_In, filter_In.
  by rewrite bool_decide_eq_true.
Qed.

Lemma find_app q l1 l2 : find q (l1 ++ l2) = find q l1 ++ find q l2.
Proof. apply List.filter_app. Qed.

Lemma find_none q docs :
  Forall (λ d, d !! q.1 ≠ Some q.2) docs → find q docs = [].
Proof.
  induction 1 as [|d docs Hd _ IH]; [done|].
  unfold find, matches in *. simpl.
  by rewrite bool_decide_eq_false_2.
Qed.

Lemma listing_elem q field docs t :
  t ∈ sort_desc field (find q docs) ↔ t ∈ docs ∧ t !! q.1 = Some q.2.
Proof. unfold sort_desc. by rewrite sort_by_elem, find_elem. Qed.

Example listing_alex :
  listing "Alex" Sample.store = [Sample.slides; Sample.report].
Proof. by vm_compute. Qed.

Example value_counts_order :
  value_counts [VStr "Pending"; VStr "Completed"; VStr "Completed"]
  = [(VStr "Completed", 2%nat); (VStr "Pending", 1%nat)].
Proof. reflexivity. Qed.

(** The fetch never stops the run: a failing query is caught. *)
Lemma fetch_tasks_cases E W w :
  fetch_tasks E W w =
    if truthy (strip (username W)) then
      match faults E OpFind with
      | None =>
          Next (sort_desc "CreatedAt" (find (owner_query W) (coll w)))
               (World (coll w) (screen w)
                      (calls w ++ [CFind (owner_query W) "CreatedAt"]))
      | Some msg =>
          Next []
               (World (coll w)
                      (screen w ++ [Error [Txt "Failed to fetch tasks: ";
                                           FmtExn (PyMongoError msg)]])
                      (calls w ++ [CFind (owner_query W) "CreatedAt"]))
      end
    else
      Next [] (World (coll w)
                 (screen w ++ [Info "Please enter your name in the sidebar to load your tasks."])
                 (calls w)).
Proof.
  unfold fetch_tasks, try_except, list_tasks, mongo.
  destruct (truthy _); [|done].
  by destruct (faults E OpFind).
Qed.

Lemma fetch_tasks_listing E W w :
  ∃ all_tasks w',
    fetch_tasks E W w = Next all_tasks w' ∧
    (all_tasks = [] ∨
     all_tasks = sort_desc "CreatedAt" (find (owner_query W) (coll w))).
Proof.
  rewrite fetch_tasks_cases.
  destruct (truthy _); [destruct (faults E OpFind)|]; eauto.
Qed.

(** C1.  For every owner [o], the listing query returns only documents
    whose [Username] is [o], and no document of the collection with a
    different [Username] is in the result; the list the script fetches
    for the entered name has both properties for [o] the stripped
    name, whether or not the query succeeds. *)
Theorem listing_only_owner (E : env) (W : widgets) (w : world) (o : string) :
  (Forall (owner_is o) (listing o (coll w)) ∧
   Forall (λ d, ¬ owner_is o d → d ∉ listing o (coll w)) (coll w)) ∧
  ∃ all_tasks w',
    fetch_tasks E W w = Next all_tasks w' ∧
    Forall (owner_is (strip (username W))) all_tasks ∧
    Forall (λ d, ¬ owner_is (strip (username W)) d → d ∉ all_tasks) (coll w).
Proof.
  assert (Hq : ∀ o' : string,
    Forall (owner_is o') (listing o' (coll w)) ∧
    Forall (λ d, ¬ owner_is o' d → d ∉ listing o' (coll w)) (coll w)).
  { intros o'. split; apply Forall_forall.
    - intros t [_ Ht]%listing_elem. exact Ht.
    - intros d _ Hd [_ Ht]%listing_elem. by apply Hd. }
  split; [apply Hq|].
  destruct (fetch_tasks_listing E W w) as (all_tasks & w' & Hrun & [->| ->]).
  - exists [], w'. split; [done|]. split; [constructor|].
    apply Forall_forall. intros d _ _. apply not_elem_of_nil.
  - eexists _, w'. split; [done|]. apply (Hq (strip (username W))).
Qed.

Lemma find_owner o docs :
  find ("Username", VStr o) docs =
  List.filter (λ d, bool_decide (owner_is o d)) docs.
Proof.
  unfold find. apply List.filter_ext. intros d.
  unfold matches. by apply bool_decide_ext.
Qed.

Lemma listing_perm o docs :
  Permutation (listing o docs)
              (List.filter (λ d, bool_decide (owner_is o d)) docs).
Proof.
  unfold listing, sort_desc. rewrite sort_by_perm. by rewrite find_owner.
Qed.

(** C6.  The fetch of a run with a name, the query not failing, yields
    that owner's tasks: the list is the owner's listing, which holds
    exactly the documents of the collection whose [Username] is the
    stripped name, each as often as the collection has it, and no
    other.  The list is ordered by [CreatedAt] descending, every task
    created no earlier than all that follow it; so is the listing
    query for any owner.  When no document of the collection belongs
    to the owner the query yields the empty list, and the fetch of a
    run whose query does not fail yields the empty list without
    putting an error on the screen.  A run without a name, or whose
    query fails, has the empty list. *)
Theorem listing_newest_first (E : env) (W : widgets) (w : world) (o : string) :
  (StronglySorted created_desc (listing o (coll w)) ∧
   (Forall (λ d, ¬ owner_is o d) (coll w) → listing o (coll w) = []) ∧
   Permutation (listing o (coll w))
               (List.filter (λ d, bool_decide (owner_is o d)) (coll w)) ∧
   (∀ t, t ∈ listing o (coll w) ↔ t ∈ coll w ∧ owner_is o t)) ∧
  ∃ all_tasks w',
    fetch_tasks E W w = Next all_tasks w' ∧
    StronglySorted created_desc all_tasks ∧
    (truthy (strip (username W)) = true →
     faults E OpFind = None →
     all_tasks = listing (strip (username W)) (coll w) ∧
     Permutation all_tasks
       (List.filter (λ d, bool_decide (owner_is (strip (username W)) d))
                    (coll w)) ∧
     (∀ t, t ∈ all_tasks ↔ t ∈ coll w ∧ owner_is (strip (username W)) t)) ∧
    (truthy (strip (username W)) = false ∨ is_Some (faults E OpFind) →
     all_tasks = []) ∧
    (Forall (λ d, ¬ owner_is (strip (username W)) d) (coll w) →
     all_tasks = [] ∧
     (faults E OpFind = None →
      Forall (λ el, ∀ text, el ≠ Error text) (screen w) →
      Forall (λ el, ∀ text, el ≠ Error text) (screen w'))).
Proof.
  assert (Hnone : ∀ o' : string,
    Forall (λ d, ¬ owner_is o' d) (coll w) → listing o' (coll w) = []).
  { intros o' H. unfold listing. by rewrite find_none. }
  assert (Helem : ∀ (o' : string) t,
    t ∈ listing o' (coll w) ↔ t ∈ coll w ∧ owner_is o' t).
  { intros o' t. unfold listing. by rewrite listing_elem. }
  split.
  { split; [apply sort_desc_strongly_sorted|].
    split; [apply Hnone|]. split; [apply listing_perm | apply Helem]. }
  rewrite fetch_tasks_cases.
  destruct (truthy _); [destruct (faults E OpFind) as [msg|]|];
    eexists _, _; (split; [reflexivity|]); simpl.
  - split; [constructor|]. split; [done|]. split; [done|]. done.
  - split; [apply sort_desc_strongly_sorted|].
    split.
    { intros _ _. split; [done|]. split; [apply listing_perm | apply Helem]. }
    split.
    { intros [?|[? ?]]; done. }
    intros H. split; [by apply Hnone|]. done.
  - split; [constructor|]. split; [done|]. split; [done|].
    intros _. split; [done|].
    intros _ Hs. apply Forall_app. split; [done|].
    by repeat constructor.
Qed.

(** Instance of C6: the run of Alex on the sample store fetches
    Alex's two tasks, newest first, which are the store's documents
    of that owner; an owner without tasks gets the empty list. *)
Lemma listing_newest_first_witness :
  fetch_tasks Sample.quiet (Sample.alex NoClick) Sample.blank =
    Next [Sample.slides; Sample.report]
         (World Sample.store [] [CFind ("Username", VStr "Alex") "CreatedAt"]) ∧
  Permutation [Sample.slides; Sample.report]
              (List.filter (λ d, bool_decide (owner_is "Alex" d)) Sample.store) ∧
  StronglySorted created_desc [Sample.slides; Sample.report] ∧
  listing "Kim" Sample.store = [].
Proof.
  assert (Hrun : fetch_tasks Sample.quiet (Sample.alex NoClick) Sample.blank =
    Next [Sample.slides; Sample.report]
         (World Sample.store [] [CFind ("Username", VStr "Alex") "CreatedAt"]))
    by (by vm_compute).
  destruct (listing_newest_first Sample.quiet (Sample.alex NoClick)
              Sample.blank "Kim")
    as [(_ & Hnone & _) (all_tasks & w' & Hfetch & Hsorted & Hown & _)].
  rewrite Hrun in Hfetch. injection Hfetch as <- <-.
  destruct (Hown eq_refl eq_refl) as (_ & Hperm & _).
  split; [exact Hrun|]. split; [exact Hperm|]. split; [exact Hsorted|].
  apply Hnone. repeat constructor; by vm_compute.
Defined.

(** ** Writing to the collection *)

Lemma update_one_unknown q upd docs :
  Forall (λ d, d !! q.1 ≠ Some q.2) docs → update_one q upd docs = docs.
Proof.
  induction 1 as [|d docs Hd _ IH]; [done|]. simpl.
  unfold matches. rewrite bool_decide_eq_false_2 by done. by rewrite IH.
Qed.

Lemma delete_one_unknown q docs :
  Forall (λ d, d !! q.1 ≠ Some q.2) docs → delete_one q docs = docs.
Proof.
  induction 1 as [|d docs Hd _ IH]; [done|]. simpl.
  unfold matches. rewrite bool_decide_eq_false_2 by done. by rewrite IH.
Qed.

(** C7.  When no document of the collection has the given [_id],
    [update_one] and [delete_one] leave the collection as it is, and
    the script's update and delete calls return normally (the driver
    not failing) with the collection unchanged and nothing put on the
    screen. *)
Theorem unknown_id_noop (E : env) (id : value) (upd : document) (w : world) :
  Forall (λ d, d !! "_id" ≠ Some id) (coll w) →
  faults E OpUpdate = None →
  faults E OpDelete = None →
  update_one ("_id", id) upd (coll w) = coll w ∧
  delete_one ("_id", id) (coll w) = coll w ∧
  update_task E id upd w =
    Next tt (World (coll w) (screen w) (calls w ++ [CUpdate ("_id", id) upd])) ∧
  delete_task E id w =
    Next tt (World (coll w) (screen w) (calls w ++ [CDelete ("_id", id)])).
Proof.
  intros Hid Hu Hd.
  assert (Hupd := update_one_unknown ("_id", id) upd (coll w) Hid).
  assert (Hdel := delete_one_unknown ("_id", id) (coll w) Hid).
  repeat split; try done.
  - unfold update_task, mongo. rewrite Hu. simpl. by rewrite Hupd.
  - unfold delete_task, mongo. rewrite Hd. simpl. by rewrite Hdel.
Qed.

(** Instance of C7: id 9 names no task of the sample store. *)
Lemma unknown_id_noop_witness :
  Forall (λ d : document, d !! "_id" ≠ Some (VOid 9)) Sample.store ∧
  update_task Sample.quiet (VOid 9) (updates "x" Completed Low) Sample.blank =
    Next tt (World Sample.store []
               [CUpdate ("_id", VOid 9) (updates "x" Completed Low)]) ∧
  delete_task Sample.quiet (VOid 9) Sample.blank =
    Next tt (World Sample.store [] [CDelete ("_id", VOid 9)]).
Proof.
  assert (Hid : Forall (λ d : document, d !! "_id" ≠ Some (VOid 9)) Sample.store)
    by (repeat constructor; by vm_compute).
  split; [exact Hid|].
  destruct (unknown_id_noop Sample.quiet (VOid 9) (updates "x" Completed Low)
              Sample.blank Hid eq_refl eq_refl) as (_ & _ & Hu & Hd).
  split; [exact Hu | exact Hd].
Defined.

(** ** Relations kept by a run *)

Section Keeps.
Variable R : relation world.
Hypothesis R_refl : ∀ w, R w w.
Hypothesis R_trans : ∀ w1 w2 w3, R w1 w2 → R w2 w3 → R w1 w3.
Hypothesis R_show : ∀ w e, R w (World (coll w) (screen w ++ [e]) (calls w)).

Lemma keeps_ret {A} (a : A) : keeps R (mret a).
Proof. intros w. apply R_refl. Qed.

Lemma keeps_raise {A} e : keeps R (@raise A e).
Proof. intros w. apply R_refl. Qed.

Lemma keeps_rerun : keeps R rerun.
Proof. intros w. apply R_refl. Qed.

Lemma keeps_lift {A} (r : raising A) : keeps R (lift r).
Proof. destruct r; [apply keeps_raise | apply keeps_ret]. Qed.

Lemma keeps_show e : keeps R (show e).
Proof. intros w. apply R_show. Qed.

Lemma keeps_bind {A B} (m : script A) (k : A → script B) :
  keeps R m → (∀ a, keeps R (k a)) → keeps R (m ≫= k).
Proof.
  intros Hm Hk w. specialize (Hm w).
  unfold mbind, script_bind. destruct (m w) as [a w'|h w']; simpl in *; [|done].
  eapply R_trans; [exact Hm | apply Hk].
Qed.

Lemma keeps_try {A} (body : script A) handler :
  keeps R body → (∀ e, keeps R (handler e)) → keeps R (try_except body handler).
Proof.
  intros Hb Hh w. specialize (Hb w). unfold try_except.
  destruct (body w) as [a w'|[|e] w']; simpl in *; try done.
  eapply R_trans; [exact Hb | apply Hh].
Qed.

Lemma keeps_for_each {A} (body : A → script unit) l :
  (∀ x, keeps R (body x)) → keeps R (for_each body l).
Proof.
  intros Hb. induction l as [|x l IH]; simpl; [apply keeps_ret|].
  apply keeps_bind; [apply Hb | intros _; apply IH].
Qed.

Lemma keeps_mongo {A} E o c (f : list document → A * list document) :
  (∀ w, R w (World (coll w) (screen w) (calls w ++ [c]))) →
  (∀ w, faults E o = None → R w (World (f (coll w)).2 (screen w) (calls w ++ [c]))) →
  keeps R (mongo E o c f).
Proof.
  intros Hfail Hok w. unfold mongo.
  destruct (faults E o) eqn:Ho; simpl; [apply Hfail | by apply Hok].
Qed.

(** What the three writes and the read have to respect. *)
Hypothesis R_find : ∀ E q f, keeps R (list_tasks E q f).

Variables (E : env) (W : widgets).

Hypothesis R_insert : ∀ name prio due,
  pressed W = AddTask name prio due → all_space name = false →
  keeps R (insert_task E (task_data E W name prio due)).
Hypothesis R_update : ∀ row name st prio,
  pressed W = Save row name st prio →
  keeps R (update_task E row (updates name st prio)).
Hypothesis R_delete : ∀ row,
  pressed W = Delete row → keeps R (delete_task E row).

Local Ltac keep :=
  repeat first
    [ apply keeps_ret | apply keeps_show | apply keeps_lift | apply keeps_rerun
    | apply keeps_bind; [|intros ?] | apply keeps_try; [|intros ?]
    | apply R_find ].

Lemma keeps_sidebar : keeps R (sidebar E W).
Proof.
  unfold sidebar. keep.
  destruct (truthy _); keep.
  destruct (pressed W) eqn:Hp; keep.
  rewrite truthy_strip, negb_involutive.
  destruct (all_space task_name) eqn:Hs; keep.
  by eapply R_insert.
Qed.

Lemma keeps_fetch_tasks : keeps R (fetch_tasks E W).
Proof. unfold fetch_tasks. destruct (truthy _); keep. Qed.

Lemma keeps_task_form task : keeps R (task_form E W task).
Proof.
  unfold task_form. keep.
  destruct (pressed W) eqn:Hp; keep;
    case_decide; subst; keep; eauto.
Qed.

Lemma keeps_dashboard all_tasks : keeps R (dashboard E W all_tasks).
Proof.
  unfold dashboard, kpi, status_chart, deadlines, manage. keep.
  - destruct a as [total pending]. keep.
    + destruct (0 <? total); keep.
    + destruct (truthy _ && _); keep. destruct (truthy _); keep.
    + destruct all_tasks; keep.
      apply keeps_for_each, keeps_task_form.
Qed.

Lemma keeps_app : keeps R (app E W).
Proof.
  unfold app.
  apply keeps_bind; [apply keeps_sidebar | intros _].
  apply keeps_bind; [unfold page_header; keep | intros _].
  apply keeps_bind; [apply keeps_fetch_tasks | apply keeps_dashboard].
Qed.
End Keeps.

(** ** The save action *)

Lemma edited_refl id d : edited id d d.
Proof. by split. Qed.

Lemma edited_trans id d1 d2 d3 :
  edited id d1 d2 → edited id d2 d3 → edited id d1 d3.
Proof.
  intros [Hk1 Hid1] [Hk2 Hid2]. split.
  - intros k Hk. by rewrite Hk2, Hk1.
  - intros Hid. specialize (Hid1 Hid). subst. by apply Hid2.
Qed.

Lemma Forall2_edited_refl id docs : Forall2 (edited id) docs docs.
Proof. induction docs; constructor; [apply edited_refl | done]. Qed.

Lemma Forall2_edited_trans id l1 l2 l3 :
  Forall2 (edited id) l1 l2 → Forall2 (edited id) l2 l3 →
  Forall2 (edited id) l1 l3.
Proof.
  intros H12. revert l3. induction H12 as [|d1 d2 l1 l2 Hd _ IH]; intros l3 H23.
  - by inversion H23.
  - inversion H23; subst. constructor; [by eapply edited_trans | by apply IH].
Qed.

Lemma updates_other_fields name st prio k :
  k ∉ mutable_fields → updates name st prio !! k = None.
Proof.
  intros Hk. unfold updates, mutable_fields in *.
  rewrite !lookup_insert_ne, lookup_singleton_ne; [done|..];
    intros ?; subst k; apply Hk; set_solver.
Qed.

Lemma update_one_edited id name st prio docs :
  Forall2 (edited id) docs (update_one ("_id", id) (updates name st prio) docs).
Proof.
  induction docs as [|d docs IH]; simpl; [constructor|].
  unfold matches. case_bool_decide as Hd; simpl in *.
  - constructor; [|apply Forall2_edited_refl]. split; [|done].
    intros k Hk. apply lookup_union_r. by apply updates_other_fields.
  - constructor; [apply edited_refl | apply IH].
Qed.

(** C3.  In a run whose pressed button is the Save of the row keyed
    [row], the collection the run leaves behind has the same documents
    in the same places, each with every field other than [Task],
    [Status] and [Priority] as before (so [Username], [DueDate],
    [CreatedAt] and [_id] in particular), and every document whose
    [_id] is not [row] is exactly as before. *)
Theorem save_changes_only_mutable_fields
    (E : env) (W : widgets) (docs : list document)
    (row : value) (name : string) (st : status_opt) (prio : priority_opt) :
  pressed W = Save row name st prio →
  Forall2 (edited row) docs (coll (final (run E W docs))) ∧
  Forall2 (λ d d', d' !! "Username" = d !! "Username" ∧
                   d' !! "DueDate" = d !! "DueDate" ∧
                   d' !! "CreatedAt" = d !! "CreatedAt" ∧
                   d' !! "_id" = d !! "_id")
          docs (coll (final (run E W docs))).
Proof.
  intros Hp.
  assert (H : Forall2 (edited row) docs (coll (final (run E W docs)))).
  { apply (λ H1 H2 H3 H4 H5 H6 H7,
             keeps_app (λ w w', Forall2 (edited row) (coll w) (coll w'))
               H1 H2 H3 H4 E W H5 H6 H7 (World docs [] [])).
    - intros w. apply Forall2_edited_refl.
    - intros w1 w2 w3. apply Forall2_edited_trans.
    - intros w e. apply Forall2_edited_refl.
    - intros E' q f. apply keeps_mongo; intros; apply Forall2_edited_refl.
    - intros ? ? ? Hp'. congruence.
    - intros row' name' st' prio' Hp'.
      assert (row' = row) as -> by congruence.
      apply keeps_mongo; intros; simpl;
        [apply Forall2_edited_refl | apply update_one_edited].
    - intros ? Hp'. congruence. }
  split; [exact H|].
  eapply Forall2_impl; [exact H|].
  intros d d' [Hk _]. unfold mutable_fields in Hk.
  repeat split; apply Hk;
    repeat (apply not_elem_of_cons; split; [discriminate|]);
    apply not_elem_of_nil.
Qed.

(** Instance of C3: saving the first sample task as completed. *)
Lemma save_changes_only_mutable_fields_witness :
  coll (final (run Sample.quiet
                 (Sample.alex (Save (VOid 1) "Write the report" Completed Medium))
                 Sample.store))
  = [updates "Write the report" Completed Medium ∪ Sample.report;
     Sample.slides; Sample.groceries] ∧
  Forall2 (edited (VOid 1)) Sample.store
    (coll (final (run Sample.quiet
                    (Sample.alex (Save (VOid 1) "Write the report" Completed Medium))
                    Sample.store))).
Proof.
  split; [by vm_compute|].
  eapply save_changes_only_mutable_fields. reflexivity.
Defined.

(** ** The add-task form *)

(** C4.  When the form is submitted with a title that is empty or all
    whitespace, the sidebar shows the warning and makes no driver
    call: collection and call log are as before.  Nothing later in the
    run writes either: the run ends with the collection unchanged and
    without an insert in its log. *)
Theorem blank_title_rejected
    (E : env) (W : widgets) (w : world)
    (name : string) (prio : priority_opt) (due : Z) :
  pressed W = AddTask name prio due →
  truthy (strip (username W)) = true →
  all_space name = true →
  sidebar E W w =
    Next tt (World (coll w)
               (screen w ++ [Header "User"; Header "Add a New Task";
                             Warning "Please enter a task name."])
               (calls w)) ∧
  coll (final (app E W w)) = coll w ∧
  (Forall (λ c, is_insert c = false) (calls w) →
   Forall (λ c, is_insert c = false) (calls (final (app E W w)))).
Proof.
  intros Hp Hu Hs. split.
  - unfold sidebar, mbind, script_bind, show. simpl.
    rewrite Hu, Hp, truthy_strip, Hs. simpl.
    by rewrite <- !app_assoc.
  - apply (λ H1 H2 H3 H4 H5 H6 H7,
             keeps_app
               (λ w w', coll w' = coll w ∧
                        (Forall (λ c, is_insert c = false) (calls w) →
                         Forall (λ c, is_insert c = false) (calls w')))
               H1 H2 H3 H4 E W H5 H6 H7 w).
    + done.
    + intros w1 w2 w3 [Hc1 Hl1] [Hc2 Hl2]. split; [congruence | auto].
    + done.
    + intros E' q f. apply keeps_mongo; intros; simpl;
        (split; [done|]); intros Hl; apply Forall_app; by repeat constructor.
    + intros ? ? ? Hp'. congruence.
    + intros ? ? ? ? Hp'. congruence.
    + intros ? Hp'. congruence.
Qed.

(** Instance of C4: a title of two spaces and a tab. *)
Lemma blank_title_rejected_witness :
  all_space "  	" = true ∧
  coll (final (app Sample.quiet (Sample.alex (AddTask "  	" Low 19875)) Sample.blank))
    = Sample.store.
Proof.
  split; [reflexivity|].
  eapply (blank_title_rejected Sample.quiet
            (Sample.alex (AddTask "  	" Low 19875)) Sample.blank);
    reflexivity.
Defined.

Lemma oid_of_le_max d docs :
  d ∈ docs → (oid_of d ≤ foldr N.max 0 (oid_of <$> docs))%N.
Proof.
  induction 1 as [d docs|d e docs _ IH]; rewrite fmap_cons; simpl; lia.
Qed.

Lemma fresh_oid_fresh docs :
  Forall (λ d, d !! "_id" ≠ Some (VOid (fresh_oid docs))) docs.
Proof.
  apply Forall_forall. intros d Hd Hid.
  apply oid_of_le_max in Hd.
  assert (Heq : oid_of d = fresh_oid docs) by (unfold oid_of; by rewrite Hid).
  rewrite Heq in Hd. unfold fresh_oid in Hd. lia.
Qed.

Lemma listing_snoc_newest o docs new :
  owner_is o new →
  Forall (λ d, owner_is o d →
               bson_ltb (d !! "CreatedAt") (new !! "CreatedAt") = true) docs →
  listing o (docs ++ [new]) = new :: listing o docs.
Proof.
  intros Hnew Hold. unfold listing, sort_desc.
  rewrite find_app.
  replace (find ("Username", VStr o) [new]) with [new].
  2:{ unfold find, matches. simpl. by rewrite bool_decide_eq_true_2. }
  apply sort_by_snoc_first.
  apply Forall_forall. intros d [Hd Ho]%find_elem.
  rewrite Forall_forall in Hold. specialize (Hold d Hd Ho).
  unfold bson_ltb in Hold. by apply negb_true_iff in Hold.
Qed.

(** C5.  When the form is submitted with a title that is not blank
    (and the insert call does not fail), the sidebar makes exactly one
    driver call, the insert, which appends exactly one document to the
    collection.  That document has status Pending, the submitted
    priority, the submitted date at midnight as due date, the stripped
    user name as owner, the stripped title, the clock's time as
    creation time, and an [_id] no other document has.  If every task
    the owner already had is strictly older, the new document is the
    first of the owner's listing, followed by the old listing. *)
Theorem add_task_inserts_one
    (E : env) (W : widgets) (w : world)
    (name : string) (prio : priority_opt) (due : Z) :
  pressed W = AddTask name prio due →
  truthy (strip (username W)) = true →
  all_space name = false →
  faults E OpInsert = None →
  let owner := strip (username W) in
  ∃ new : document,
    sidebar E W w =
      Next tt (World (coll w ++ [new])
                 (screen w ++ [Header "User"; Header "Add a New Task";
                               Toast [Txt "Task '"; Fmt (VStr name); Txt "' added!"]])
                 (calls w ++ [CInsert (task_data E W name prio due)])) ∧
    (new !! "Status" = Some (VStr "Pending") ∧
     new !! "Priority" = Some (VStr (priority_label prio)) ∧
     new !! "DueDate" = Some (VDate (combine due)) ∧
     new !! "Username" = Some (VStr owner) ∧
     new !! "Task" = Some (VStr (strip name)) ∧
     new !! "CreatedAt" = Some (VDate (utcnow E))) ∧
    Forall (λ d, d !! "_id" ≠ new !! "_id") (coll w) ∧
    (Forall (λ d, owner_is owner d → created_before (utcnow E) d) (coll w) →
     listing owner (coll w ++ [new]) = new :: listing owner (coll w)).
Proof.
  intros Hp Hu Hs Hf owner.
  exists (<["_id" := VOid (fresh_oid (coll w))]> (task_data E W name prio due)).
  assert (Hfields : ∀ k : string, k ≠ "_id" →
    (<["_id" := VOid (fresh_oid (coll w))]> (task_data E W name prio due)) !! k
    = task_data E W name prio due !! k).
  { intros k Hk. by rewrite lookup_insert_ne. }
  split; [|split; [|split]].
  - unfold sidebar, insert_task, mongo, mbind, script_bind, show. simpl.
    rewrite Hu, Hp, truthy_strip, Hs, Hf. simpl.
    unfold insert_one. by rewrite <- !app_assoc.
  - rewrite !Hfields by discriminate. unfold task_data.
    repeat split; by simplify_map_eq.
  - rewrite lookup_insert_eq. apply fresh_oid_fresh.
  - intros Hold. apply listing_snoc_newest.
    + unfold owner_is. rewrite Hfields by discriminate.
      unfold task_data. by simplify_map_eq.
    + eapply Forall_impl; [exact Hold|]. intros d Hd Ho.
      rewrite Hfields by discriminate. unfold task_data.
      rewrite lookup_insert_ne, lookup_insert_ne, lookup_insert_ne,
        lookup_insert_ne, lookup_insert_ne, lookup_singleton_eq by discriminate.
      by apply Hd.
Qed.

(** Instance of C5: Alex adds a task while holding two older ones. *)
Lemma add_task_inserts_one_witness :
  Forall (λ d, owner_is "Alex" d → created_before (utcnow Sample.quiet) d)
    Sample.store ∧
  ∃ new : document,
    coll (final (sidebar Sample.quiet
                   (Sample.alex (AddTask " Call Sam " High 19875)) Sample.blank))
      = Sample.store ++ [new] ∧
    new !! "Task" = Some (VStr "Call Sam") ∧
    new !! "Status" = Some (VStr "Pending") ∧
    listing "Alex" (Sample.store ++ [new]) = [new; Sample.slides; Sample.report].
Proof.
  assert (Hold : Forall (λ d, owner_is "Alex" d →
                              created_before (utcnow Sample.quiet) d) Sample.store)
    by (repeat constructor; intros _; by vm_compute).
  split; [exact Hold|].
  destruct (add_task_inserts_one Sample.quiet
              (Sample.alex (AddTask " Call Sam " High 19875)) Sample.blank
              " Call Sam " High 19875 eq_refl eq_refl eq_refl eq_refl)
    as (new & Hrun & (Hst & _ & _ & _ & Htask & _) & _ & Hfirst).
  exists new. split; [by rewrite Hrun|].
  split; [exact Htask|]. split; [exact Hst|].
  exact (Hfirst Hold).
Defined.

(** ** A failing fetch *)

Lemma dashboard_empty E W w :
  truthy (strip (username W)) = true →
  dashboard E W [] w =
    Next tt
      (World (coll w)
         (screen w ++
            [Subheader "Project Overview";
             Metric "Total Tasks" 0; Metric "Completed" 0; Metric "Pending" 0;
             Subheader "Task Status Distribution";
             Info "Add a task to see the status distribution chart.";
             Subheader "Upcoming Deadlines";
             Info "No pending tasks with deadlines.";
             Subheader "Manage Your Tasks";
             Info "No tasks found. Add your first task from the sidebar!"])
         (calls w)).
Proof.
  intros Hu.
  unfold dashboard, kpi, status_chart, deadlines, manage, lift, show,
    mbind, script_bind, mret, script_ret.
  simpl. rewrite Hu. simpl. by rewrite <- !app_assoc.
Qed.

(** C8.  In a run that reaches the fetch (the sidebar has not ended
    it) and whose listing query raises, the fetch shows the error and
    yields the empty list, and the run goes on to its normal end: the
    three counts are zero, chart, deadlines table and task list are
    replaced by their empty-state notes, and the collection is as the
    sidebar left it. *)
Theorem failed_fetch_renders_empty
    (E : env) (W : widgets) (w w1 : world) (msg : string) :
  sidebar E W w = Next tt w1 →
  truthy (strip (username W)) = true →
  faults E OpFind = Some msg →
  app E W w =
    Next tt
      (World (coll w1)
         (screen w1 ++
            [Title "TaskMaster Dashboard";
             Markdown [Txt "Managing tasks for: **"; Fmt (VStr (username W)); Txt "**"];
             Error [Txt "Failed to fetch tasks: "; FmtExn (PyMongoError msg)];
             Subheader "Project Overview";
             Metric "Total Tasks" 0; Metric "Completed" 0; Metric "Pending" 0;
             Subheader "Task Status Distribution";
             Info "Add a task to see the status distribution chart.";
             Subheader "Upcoming Deadlines";
             Info "No pending tasks with deadlines.";
             Subheader "Manage Your Tasks";
             Info "No tasks found. Add your first task from the sidebar!"])
         (calls w1 ++ [CFind (owner_query W) "CreatedAt"])).
Proof.
  intros Hside Hu Hf.
  unfold app. unfold mbind at 1, script_bind at 1. rewrite Hside.
  unfold mbind at 1, script_bind at 1.
  unfold page_header, show, mbind, script_bind. simpl.
  rewrite fetch_tasks_cases, Hu, Hf. simpl.
  rewrite dashboard_empty by done. simpl. by rewrite <- !app_assoc.
Qed.

(** Instance of C8: the query times out on Alex's page. *)
Lemma failed_fetch_renders_empty_witness :
  ∃ w', run Sample.find_down (Sample.alex NoClick) Sample.store = Next tt w' ∧
        coll w' = Sample.store ∧
        Error [Txt "Failed to fetch tasks: "; FmtExn (PyMongoError "timed out")]
          ∈ screen w' ∧
        Metric "Total Tasks" 0 ∈ screen w'.
Proof.
  eexists. split.
  - eapply (failed_fetch_renders_empty Sample.find_down (Sample.alex NoClick)
              Sample.blank); reflexivity.
  - split; [reflexivity|]. split; by vm_compute; set_solver.
Defined.

(** ** Saving a row *)

Lemma update_one_hit id upd docs t :
  t ∈ docs → t !! "_id" = Some id →
  ∃ d, d ∈ docs ∧ d !! "_id" = Some id ∧
       (upd ∪ d) ∈ update_one ("_id", id) upd docs.
Proof.
  intros Ht Hid. induction Ht as [t docs|t e docs Ht IH]; simpl; unfold matches.
  - rewrite bool_decide_eq_true_2 by done.
    exists t. split; [left|]. split; [done | left].
  - case_bool_decide as He; simpl in *.
    + exists e. split; [left|]. split; [done | left].
    + destruct (IH Hid) as (d & Hd & Hdid & Hin).
      exists d. split; [by right|]. split; [done | by right].
Qed.

(** C9.  The Save branch of a row has no check on the edited title.
    For a row that is on screen (its widgets were built), pressing Save
    with a title that is empty or all whitespace (the update call not
    failing) is not rejected: no warning is shown, the update is sent
    with [Task] set to the empty string, the "updated" toast follows
    and the script reruns.  If the task is in the collection, the
    collection then holds a document with this [_id] whose title is
    the empty string. *)
Theorem blank_title_saved
    (E : env) (W : widgets) (w : world) (task : document)
    (id title status : value) (status_index priority_index : nat)
    (name : string) (st : status_opt) (prio : priority_opt) :
  task !! "_id" = Some id →
  task !! "Task" = Some title →
  task !! "Status" = Some status →
  index STATUS_OPTIONS status = inr status_index →
  index PRIORITY_OPTIONS (get task "Priority" (VStr "Medium")) = inr priority_index →
  pressed W = Save id name st prio →
  all_space name = true →
  faults E OpUpdate = None →
  task_form E W task w =
    Halt Rerun
      (World (update_one ("_id", id) (updates name st prio) (coll w))
         (screen w ++ [TaskForm id title status_index priority_index;
                       Toast [Txt "Task updated!"]])
         (calls w ++ [CUpdate ("_id", id) (updates name st prio)])) ∧
  updates name st prio !! "Task" = Some (VStr "") ∧
  (task ∈ coll w →
   ∃ d', d' ∈ update_one ("_id", id) (updates name st prio) (coll w) ∧
         d' !! "_id" = Some id ∧ d' !! "Task" = Some (VStr "")).
Proof.
  intros Hid Htitle Hstatus Hsi Hpi Hp Hs Hf.
  assert (Htask : updates name st prio !! "Task" = Some (VStr "")).
  { unfold updates. rewrite lookup_insert_eq.
    apply strip_empty in Hs. by rewrite Hs. }
  split; [|split; [done|]].
  - unfold task_form, getitem. rewrite Hid, Htitle, Hstatus.
    unfold lift, mbind, script_bind, mret, script_ret.
    cbn -[index get]. rewrite Hsi, Hpi, Hp.
    rewrite decide_True by done.
    unfold show, update_task, mongo, rerun. cbn -[updates]. rewrite Hf.
    cbn -[updates]. by rewrite <- !app_assoc.
  - intros Hin.
    destruct (update_one_hit id (updates name st prio) (coll w) task Hin Hid)
      as (d & Hd & Hdid & Hupd).
    exists (updates name st prio ∪ d). split; [done|]. split.
    + rewrite lookup_union_r; [done|].
      apply updates_other_fields. unfold mutable_fields.
      repeat (apply not_elem_of_cons; split; [discriminate|]).
      apply not_elem_of_nil.
    + by apply lookup_union_Some_l.
Qed.

(** Instance of C9: Alex blanks the title of the first sample task;
    the whole run stores the empty title. *)
Lemma blank_title_saved_witness :
  all_space "   " = true ∧
  (Sample.report ∈ Sample.store →
   ∃ d', d' ∈ update_one ("_id", VOid 1) (updates "   " Pending High) Sample.store ∧
         d' !! "_id" = Some (VOid 1) ∧ d' !! "Task" = Some (VStr "")) ∧
  (λ d : document, d !! "Task") <$>
    coll (final (run Sample.quiet (Sample.alex (Save (VOid 1) "   " Pending High))
                   Sample.store))
  = [Some (VStr ""); Some (VStr "Slides"); Some (VStr "Groceries")].
Proof.
  split; [reflexivity|]. split; [|by vm_compute].
  eapply (blank_title_saved Sample.quiet
            (Sample.alex (Save (VOid 1) "   " Pending High)) Sample.blank
            Sample.report (VOid 1) (VStr "Write report") (VStr "Pending") 0 0);
    reflexivity.
Defined.

(** ** The deadlines table *)

Lemma pending_rows_count all_tasks :
  Forall (λ t : document, is_Some (t !! "Status") ∧ is_Some (t !! "Task")) all_tasks →
  ∃ (c : nat) rows,
    count_completed all_tasks = inr c ∧
    pending_rows all_tasks = inr rows ∧
    (length rows + c = length all_tasks)%nat.
Proof.
  induction 1 as [|t rest [[s Hs] [title Ht]] _ (c & rows & Hc & Hrows & Hlen)].
  { by exists 0%nat, []. }
  cbn [count_completed pending_rows]. unfold getitem.
  rewrite Hs, Ht, Hc, Hrows. cbn [mbind raising_bind mret raising_ret].
  destruct (decide (s = VStr "Completed")) as [->|Hne].
  - rewrite decide_False by (intros H; by apply H).
    eexists _, _. split; [reflexivity|]. split; [reflexivity|]. simpl. lia.
  - rewrite decide_True by done.
    eexists _, _. split; [reflexivity|]. split; [reflexivity|]. simpl. lia.
Qed.

Section Deadlines.
Variable E : env.
Hypothesis na_unparseable : parse_date E "N/A" = None.

Lemma upcoming_completed t :
  t !! "Status" = Some (VStr "Completed") → upcoming E t = None.
Proof.
  intros Hs. unfold upcoming. rewrite Hs. cbn.
  destruct (t !! "Task"); cbn; [|done].
  destruct (t !! "DueDate") as [due|]; cbn; [|done].
  by destruct (to_datetime E due).
Qed.

Lemma upcoming_pending t s title :
  t !! "Status" = Some s → t !! "Task" = Some title → s ≠ VStr "Completed" →
  upcoming E t =
    match to_datetime E (get t "DueDate" (VStr "N/A")) with
    | Some ms => Some (Row title (get t "Priority" (VStr "Medium")) (Some ms))
    | None => None
    end.
Proof.
  intros Hs Ht Hne. unfold upcoming. rewrite Hs, Ht. cbn.
  unfold get at 2. destruct (t !! "DueDate") as [due|] eqn:Hdue; cbn.
  - destruct (to_datetime E due); cbn; [|done]. by rewrite decide_False.
  - by rewrite na_unparseable.
Qed.

Lemma pending_rows_upcoming all_tasks :
  Forall (λ t : document, is_Some (t !! "Status") ∧ is_Some (t !! "Task")) all_tasks →
  ∃ rows,
    pending_rows all_tasks = inr rows ∧
    dropna ((λ r, Row (Task r) (Priority r) (to_datetime E (DueDate r))) <$> rows)
    = omap (upcoming E) all_tasks.
Proof.
  induction 1 as [|t rest [[s Hs] [title Ht]] _ (rows & Hrows & IH)].
  { by exists []. }
  cbn [pending_rows omap list_omap]. unfold getitem.
  rewrite Hs, Ht. cbn [mbind raising_bind].
  destruct (decide (s = VStr "Completed")) as [->|Hne].
  - rewrite decide_False by (intros H; by apply H).
    exists rows. split; [done|]. by rewrite IH, upcoming_completed.
  - rewrite decide_True by done. rewrite Hrows. cbn [mbind raising_bind].
    eexists. split; [reflexivity|].
    rewrite fmap_cons, (upcoming_pending t s title) by done.
    unfold dropna in *. cbn [List.filter DueDate Task Priority].
    rewrite IH.
    by destruct (to_datetime E (get t "DueDate" (VStr "N/A"))) as [ms|].
Qed.
Lemma sort_values_sorted df :
  Forall (λ r, is_Some (DueDate r)) df →
  StronglySorted due_le (sort_values df).
Proof.
  intros Hdf.
  assert (Hsome : Forall (λ r, is_Some (DueDate r)) (sort_values df)).
  { unfold sort_values. by rewrite sort_by_perm. }
  assert (Hs : StronglySorted
                 (λ r s, due_leb (DueDate r) (DueDate s) = true) (sort_values df)).
  { apply sort_by_strongly_sorted.
    - intros x y. unfold due_leb.
      destruct (DueDate x), (DueDate y); try done.
      intros H%Z.leb_gt. apply Z.leb_le. lia.
    - intros x y z. unfold due_leb.
      destruct (DueDate x), (DueDate y), (DueDate z); try done.
      intros H1%Z.leb_le H2%Z.leb_le. apply Z.leb_le. lia. }
  induction Hs as [|r l _ IH Hr]; [constructor|].
  apply Forall_cons in Hsome as [[x Hx] Hl].
  constructor; [by apply IH|].
  rewrite Forall_forall in Hr, Hl. apply Forall_forall. intros s Hin.
  destruct (Hl s Hin) as [y Hy]. specialize (Hr s Hin).
  rewrite Hx, Hy in Hr. exists x, y. repeat split; try done.
  by apply Z.leb_le.
Qed.

Lemma dropna_some df : Forall (λ r, is_Some (DueDate r)) (dropna df).
Proof.
  apply Forall_forall. intros r Hr. unfold dropna in Hr.
  apply list_elem_of_In, filter_In in Hr as [_ Hr].
  by apply bool_decide_eq_true in Hr.
Qed.

(** C2.  For a fetched list whose documents all have a status and a
    title (and the entered name not blank): when some task is not
    completed, the page shows the data frame, which is, up to order,
    one row per task that is not completed and whose due date is
    present and parses, no other row, and is in non-decreasing order
    of due date; when every task is completed, the page shows the
    empty-state note instead, and no task qualifies for a row. *)
Theorem upcoming_deadlines_table
    (W : widgets) (all_tasks : list document) (w : world) :
  Forall (λ t : document, is_Some (t !! "Status") ∧ is_Some (t !! "Task")) all_tasks →
  truthy (strip (username W)) = true →
  ∃ completed : nat,
    count_completed all_tasks = inr completed ∧
    (completed ≤ length all_tasks)%nat ∧
    ((completed < length all_tasks)%nat →
     ∃ df : list (row (option Z)),
       pending_df E all_tasks = inr df ∧
       Permutation df (omap (upcoming E) all_tasks) ∧
       StronglySorted due_le df ∧
       deadlines E W all_tasks
         (Z.of_nat (length all_tasks) - Z.of_nat completed) w =
         Next tt
           (World (coll w)
              (screen w ++ [Subheader "Upcoming Deadlines"; Dataframe df])
              (calls w))) ∧
    (completed = length all_tasks →
     omap (upcoming E) all_tasks = [] ∧
     deadlines E W all_tasks
       (Z.of_nat (length all_tasks) - Z.of_nat completed) w =
       Next tt
         (World (coll w)
            (screen w ++ [Subheader "Upcoming Deadlines";
                          Info "No pending tasks with deadlines."])
            (calls w))).
Proof.
  intros Hwf Hu.
  destruct (pending_rows_count all_tasks Hwf) as (c & rows & Hc & Hrows & Hlen).
  destruct (pending_rows_upcoming all_tasks Hwf) as (rows' & Hrows' & Hdf).
  assert (rows' = rows) as -> by congruence.
  exists c. split; [done|]. split; [lia|]. split.
  - intros Hlt.
    assert (Hpdf : pending_df E all_tasks
                   = inr (sort_values (omap (upcoming E) all_tasks))).
    { unfold pending_df. rewrite Hrows. cbn [mbind raising_bind].
      destruct rows; [simpl in Hlen; lia|]. by rewrite Hdf. }
    eexists. split; [exact Hpdf|].
    split; [apply sort_by_perm|].
    split; [rewrite <- Hdf; apply sort_values_sorted, dropna_some|].
    unfold deadlines, show, lift, mbind, script_bind, mret, script_ret.
    rewrite Hu, Hpdf. cbn [andb].
    replace (0 <? _) with true by (symmetry; apply Z.ltb_lt; lia).
    cbn. by rewrite <- !app_assoc.
  - intros Heq. split.
    + destruct rows; [by rewrite <- Hdf | simpl in Hlen; lia].
    + unfold deadlines, show, lift, mbind, script_bind, mret, script_ret.
      rewrite Hu. cbn [andb].
      replace (0 <? _) with false by (symmetry; apply Z.ltb_ge; lia).
      cbn. by rewrite <- !app_assoc.
Qed.
End Deadlines.

(** Instance of C2 on a list with a completed task, a task without a
    due date and two dated tasks out of order. *)
Lemma upcoming_deadlines_table_witness :
  pending_df Sample.quiet
    [Sample.groceries; Sample.slides; Sample.blocked; Sample.report]
  = inr [Row (VStr "Write report") (VStr "High") (Some 1717200000000);
         Row (VStr "Groceries") (VStr "Medium") (Some 1717300000000)] ∧
  ∃ df, pending_df Sample.quiet
          [Sample.groceries; Sample.slides; Sample.blocked; Sample.report]
        = inr df ∧ StronglySorted due_le df.
Proof.
  split; [by vm_compute|].
  destruct (upcoming_deadlines_table Sample.quiet eq_refl (Sample.alex NoClick)
              [Sample.groceries; Sample.slides; Sample.blocked; Sample.report]
              Sample.blank)
    as (c & Hc & _ & Hshown & _).
  - repeat constructor; by vm_compute; eauto.
  - reflexivity.
  - assert (c = 1%nat) as -> by (vm_compute in Hc; congruence).
    destruct Hshown as (df & Hdf & _ & Hsorted & _); [vm_compute; lia|].
    by exists df.
Defined.

(** ** What the page needs of a document *)

Lemma yields_ret {A} (a : A) : yields (mret a) a.
Proof. intros w. by exists w. Qed.

Lemma yields_show e : yields (show e) tt.
Proof. intros w. by eexists. Qed.

Lemma yields_bind {A B} (m : script A) (k : A → script B) a b :
  yields m a → yields (k a) b → yields (m ≫= k) b.
Proof.
  intros Hm Hk w. destruct (Hm w) as (w1 & Hrun & Hcoll).
  destruct (Hk w1) as (w2 & Hrun' & Hcoll').
  exists w2. unfold mbind, script_bind. rewrite Hrun, Hrun'.
  split; [done | congruence].
Qed.

Lemma yields_for_each {A} (body : A → script unit) (P : A → Prop) l :
  (∀ x, P x → yields (body x) tt) → Forall P l → yields (for_each body l) tt.
Proof.
  intros Hb. induction 1 as [|x l Hx _ IH]; simpl; [apply yields_ret|].
  eapply yields_bind; [by apply Hb | apply IH].
Qed.

Lemma count_completed_missing all_tasks t :
  t ∈ all_tasks → t !! "Status" = None →
  count_completed all_tasks = inl (KeyError "Status").
Proof.
  intros Ht Hs. induction Ht as [t rest|t e rest _ IH];
    cbn [count_completed]; unfold getitem.
  - by rewrite Hs.
  - destruct (e !! "Status"); [|done].
    cbn [mbind raising_bind]. by rewrite IH.
Qed.

Lemma count_completed_ok all_tasks :
  Forall (λ t : document, is_Some (t !! "Status")) all_tasks →
  ∃ c, count_completed all_tasks = inr c.
Proof.
  induction 1 as [|t rest [s Hs] _ [c Hc]]; [by exists 0%nat|].
  cbn [count_completed]. unfold getitem. rewrite Hs, Hc.
  cbn [mbind raising_bind]. eauto.
Qed.

Lemma statuses_ok all_tasks :
  Forall (λ t : document, is_Some (t !! "Status")) all_tasks →
  ∃ l, mapM (M:=raising) (λ t : document, getitem t "Status") all_tasks = inr l.
Proof.
  induction 1 as [|t rest [s Hs] _ [l Hl]]; [by exists []|].
  cbn [mapM].
  replace (getitem t "Status") with (inr s : raising value)
    by (unfold getitem; by rewrite Hs).
  cbn [mbind raising_bind]. rewrite Hl. cbn. eauto.
Qed.

Lemma filtered_tasks_selected fs all_tasks rows :
  filtered_tasks fs all_tasks = inr rows →
  Forall (λ r : document,
            r ∈ all_tasks ∧ ∃ s, r !! "Status" = Some s ∧ selected fs s = true) rows.
Proof.
  revert rows. induction all_tasks as [|t rest IH]; intros rows;
    cbn [filtered_tasks]; unfold getitem.
  { intros [= <-]. constructor. }
  destruct (t !! "Status") as [s|] eqn:Hs; [|done].
  cbn [mbind raising_bind].
  destruct (filtered_tasks fs rest) as [|kept]; [done|].
  cbn [mbind raising_bind mret raising_ret]. intros [= <-].
  specialize (IH kept eq_refl).
  assert (Hkept : Forall (λ r : document, r ∈ t :: rest ∧
                    ∃ s, r !! "Status" = Some s ∧ selected fs s = true) kept).
  { eapply Forall_impl; [exact IH|]. intros r [Hin Hr]. split; [by right | done]. }
  destruct (selected fs s) eqn:Hsel; [|done].
  constructor; [|done]. split; [left | eauto].
Qed.

Lemma filtered_tasks_ok fs all_tasks :
  Forall (λ t : document, is_Some (t !! "Status")) all_tasks →
  ∃ rows, filtered_tasks fs all_tasks = inr rows.
Proof.
  induction 1 as [|t rest [s Hs] _ [rows Hrows]]; [by exists []|].
  cbn [filtered_tasks]. unfold getitem. rewrite Hs, Hrows.
  cbn [mbind raising_bind]. eauto.
Qed.

Lemma selected_label fs s :
  selected fs s = true → ∃ o, s = VStr (status_label o).
Proof.
  unfold selected. intros (o & _ & Ho)%existsb_exists.
  apply bool_decide_eq_true in Ho. eauto.
Qed.

Lemma status_index_ok o : ∃ i, index STATUS_OPTIONS (VStr (status_label o)) = inr i.
Proof. destruct o; by eexists. Qed.

Lemma priority_index_ok t :
  t !! "Priority" = None ∨ (∃ p, t !! "Priority" = Some (VStr (priority_label p))) →
  ∃ i, index PRIORITY_OPTIONS (get t "Priority" (VStr "Medium")) = inr i.
Proof.
  unfold get. intros [-> | [p ->]]; [by eexists|].
  destruct p; by eexists.
Qed.

Lemma yields_task_form E W fs (task : document) :
  pressed W = NoClick →
  renderable task →
  (∃ s, task !! "Status" = Some s ∧ selected fs s = true) →
  yields (task_form E W task) tt.
Proof.
  intros Hp ([id Hid] & [title Ht] & _ & Hprio) (s & Hs & Hsel).
  apply selected_label in Hsel as [o ->].
  destruct (status_index_ok o) as [si Hsi].
  destruct (priority_index_ok task Hprio) as [pi Hpi].
  unfold task_form, getitem. rewrite Hid, Ht, Hs. intros w.
  unfold lift, mbind, script_bind, mret, script_ret.
  cbn -[index get status_label]. rewrite Hsi, Hpi, Hp.
  cbn. by eexists.
Qed.

Lemma renderable_fields t :
  renderable t → is_Some (t !! "Status") ∧ is_Some (t !! "Task").
Proof. by intros (_ & ? & ? & _). Qed.

Lemma yields_dashboard E W all_tasks :
  Forall renderable all_tasks →
  pressed W = NoClick →
  yields (dashboard E W all_tasks) tt.
Proof.
  intros Hr Hp.
  assert (Hst : Forall (λ t : document, is_Some (t !! "Status")) all_tasks).
  { eapply Forall_impl; [exact Hr|]. by intros t (_ & _ & ? & _). }
  assert (Hwf : Forall (λ t : document,
                          is_Some (t !! "Status") ∧ is_Some (t !! "Task")) all_tasks).
  { eapply Forall_impl; [exact Hr | apply renderable_fields]. }
  destruct (pending_rows_count all_tasks Hwf) as (c & rows & Hc & Hrows & Hlen).
  destruct (statuses_ok all_tasks Hst) as [l Hl].
  destruct (filtered_tasks_ok (filter_status W) all_tasks Hst) as [kept Hkept].
  unfold dashboard.
  eapply (yields_bind _ _ (Z.of_nat (length all_tasks),
                           Z.of_nat (length all_tasks) - Z.of_nat c)).
  { unfold kpi. rewrite Hc. unfold lift.
    repeat (eapply yields_bind; [first [apply yields_ret | apply yields_show]|]).
    apply yields_ret. }
  cbn beta iota. eapply yields_bind; [|eapply yields_bind].
  - unfold status_chart. eapply yields_bind; [apply yields_show|].
    destruct (0 <? _); [|apply yields_show].
    rewrite Hl. unfold lift.
    eapply yields_bind; [apply yields_ret | apply yields_show].
  - unfold deadlines. eapply yields_bind; [apply yields_show|].
    destruct (truthy _); cbn [andb]; [|apply yields_ret].
    destruct (Z.ltb_spec 0 (Z.of_nat (length all_tasks) - Z.of_nat c));
      [|apply yields_show].
    unfold pending_df. rewrite Hrows. cbn [mbind raising_bind].
    destruct rows as [|r rows']; [simpl in Hlen; lia|].
    unfold lift, mret, raising_ret.
    eapply yields_bind; [apply yields_ret | apply yields_show].
  - unfold manage. eapply yields_bind; [apply yields_show|].
    destruct all_tasks as [|t rest]; [apply yields_show|].
    rewrite Hkept.
    change (yields (for_each (task_form E W) kept) tt).
    apply filtered_tasks_selected in Hkept.
    eapply yields_for_each; [|exact Hkept].
    intros r [Hin Hsel]. cbn beta in *.
    eapply yields_task_form; [done | | exact Hsel].
    rewrite Forall_forall in Hr. by apply Hr.
Qed.

(** C10 as stated fails: a task whose status is outside the option
    list does not stop the run.  It is counted as pending and charted,
    and the task list leaves it out without building a selector. *)
Lemma out_of_enum_status_renders :
  Sample.blocked !! "Status" = Some (VStr "Blocked") ∧
  index STATUS_OPTIONS (VStr "Blocked") = inl (ValueError (VStr "Blocked")) ∧
  ¬ crashed (run Sample.quiet (Sample.alex NoClick) [Sample.blocked]) ∧
  run Sample.quiet (Sample.alex NoClick) [Sample.blocked] =
    Next tt
      (World [Sample.blocked]
         [Header "User"; Header "Add a New Task";
          Title "TaskMaster Dashboard";
          Markdown [Txt "Managing tasks for: **"; Fmt (VStr " Alex "); Txt "**"];
          Subheader "Project Overview";
          Metric "Total Tasks" 1; Metric "Completed" 0; Metric "Pending" 1;
          Subheader "Task Status Distribution";
          PlotlyChart [(VStr "Blocked", 1%nat)];
          Subheader "Upcoming Deadlines";
          Dataframe [];
          Subheader "Manage Your Tasks"]
         [CFind ("Username", VStr "Alex") "CreatedAt"]).
Proof.
  assert (Hrun : run Sample.quiet (Sample.alex NoClick) [Sample.blocked] =
    Next tt
      (World [Sample.blocked]
         [Header "User"; Header "Add a New Task";
          Title "TaskMaster Dashboard";
          Markdown [Txt "Managing tasks for: **"; Fmt (VStr " Alex "); Txt "**"];
          Subheader "Project Overview";
          Metric "Total Tasks" 1; Metric "Completed" 0; Metric "Pending" 1;
          Subheader "Task Status Distribution";
          PlotlyChart [(VStr "Blocked", 1%nat)];
          Subheader "Upcoming Deadlines";
          Dataframe [];
          Subheader "Manage Your Tasks"]
         [CFind ("Username", VStr "Alex") "CreatedAt"])) by (by vm_compute).
  split; [by vm_compute|]. split; [by vm_compute|]. split; [|exact Hrun].
  intros (e & w & Hcrash). rewrite Hrun in Hcrash. discriminate.
Qed.

(** C10, amended.  The page needs every fetched document to have a
    [Status]: if one has none, the KPI count raises [KeyError] and the
    run ends there, nothing shown below the fetch.  It does not need
    the status to be one of the options: the task list keeps only
    documents whose status is among the selected options, so a
    document with any other status is left out of the list, and the
    status selector is only ever built from a status that has a
    position in the option list.  A missing [Priority] is read as
    "Medium" (position 1).  A fetched list of documents that have
    [_id], [Task] and [Status], whatever the status, and a priority
    that is missing or one of the options, is rendered to the end when
    no button is pressed. *)
Theorem status_presupposed
    (E : env) (W : widgets) (all_tasks : list document) (w : world) (t : document) :
  t ∈ all_tasks →
  (t !! "Status" = None →
   dashboard E W all_tasks w = Halt (Uncaught (KeyError "Status")) w) ∧
  (∀ s, t !! "Status" = Some s → (∀ o, s ≠ VStr (status_label o)) →
        ∀ rows, filtered_tasks (filter_status W) all_tasks = inr rows → t ∉ rows) ∧
  (∀ rows r, filtered_tasks (filter_status W) all_tasks = inr rows → r ∈ rows →
             ∃ s i, r !! "Status" = Some s ∧ index STATUS_OPTIONS s = inr i) ∧
  (t !! "Priority" = None →
   index PRIORITY_OPTIONS (get t "Priority" (VStr "Medium")) = inr 1%nat) ∧
  (Forall renderable all_tasks → pressed W = NoClick →
   ∃ w', dashboard E W all_tasks w = Next tt w' ∧ coll w' = coll w).
Proof.
  intros Ht. repeat split.
  - intros Hs. unfold dashboard, kpi.
    rewrite (count_completed_missing all_tasks t Ht Hs). done.
  - intros s Hs Hout rows Hrows Hin.
    apply filtered_tasks_selected in Hrows.
    rewrite Forall_forall in Hrows.
    destruct (Hrows t Hin) as (_ & s' & Hs' & Hsel).
    apply selected_label in Hsel as [o ->].
    apply (Hout o). congruence.
  - intros rows r Hrows Hin.
    apply filtered_tasks_selected in Hrows.
    rewrite Forall_forall in Hrows.
    destruct (Hrows r Hin) as (_ & s & Hs & Hsel).
    apply selected_label in Hsel as [o ->].
    destruct (status_index_ok o) as [i Hi]. eauto.
  - intros Hp. unfold get. by rewrite Hp.
  - intros Hr Hp.
    apply (yields_dashboard E W all_tasks Hr Hp w).
Qed.

(** Instance of C10: a document without status stops the page; the
    out-of-list status and the missing priority of [Sample.blocked]
    do not. *)
Lemma status_presupposed_witness :
  dashboard Sample.quiet (Sample.alex NoClick)
    [Sample.report; delete "Status" Sample.slides] Sample.blank
  = Halt (Uncaught (KeyError "Status")) Sample.blank ∧
  (∃ w', dashboard Sample.quiet (Sample.alex NoClick)
           [Sample.blocked; Sample.report] Sample.blank = Next tt w') ∧
  index PRIORITY_OPTIONS (get Sample.blocked "Priority" (VStr "Medium")) = inr 1%nat.
Proof.
  split; [|split].
  - eapply (status_presupposed Sample.quiet (Sample.alex NoClick)
              [Sample.report; delete "Status" Sample.slides] Sample.blank
              (delete "Status" Sample.slides)).
    + right. left.
    + by vm_compute.
  - destruct (status_presupposed Sample.quiet (Sample.alex NoClick)
                [Sample.blocked; Sample.report] Sample.blank Sample.blocked)
      as (_ & _ & _ & _ & Hok); [left|].
    destruct Hok as (w' & Hrun & _); [|reflexivity|by exists w'].
    constructor; [|constructor; [|constructor]].
    + split; [by exists (VOid 4)|]. split; [by exists (VStr "Wait for review")|].
      split; [by exists (VStr "Blocked")|]. by left.
    + split; [by exists (VOid 1)|]. split; [by exists (VStr "Write report")|].
      split; [by exists (VStr "Pending")|]. right. by exists High.
  - eapply (status_presupposed Sample.quiet (Sample.alex NoClick)
              [Sample.blocked] Sample.blank Sample.blocked); [left|].
    by vm_compute.
Defined.

(** * Further properties of the script *)

(** ** Connection set-up *)

(** X1.  Once a run has connected, the client is cached and the session
    marked: a later run of the same session never shows the success
    toast again and never reports a connection error, whatever the
    server's state at that time; it connects silently when the ping
    answers and stops with the "not responsive" error when it does
    not. *)
Theorem connected_once (srv srv' : server) (S S' : session) (shown : list element) :
  startup srv S = Connected shown S' →
  startup srv' S' =
    match ping_fault srv' with
    | None => Connected [] S'
    | Some msg =>
        Stopped [Error [Txt "Database is not responsive: ";
                        FmtExn (PyMongoError msg)]] S'
    end.
Proof.
  unfold startup, init_connection. intros H.
  assert (HS' : client_cached S' = true ∧
                "db_connection_success" ∈ session_state S').
  { destruct (client_cached S) eqn:Hc.
    - destruct (ping_fault srv); [done|].
      case_decide as Hin; injection H as <- <-; simpl; [done|].
      split; [done | set_solver].
    - destruct (connect_fault srv) as [[?|?]|]; try done.
      destruct (ping_fault srv); [done|]. simpl in H.
      case_decide as Hin; injection H as <- <-; simpl; [done|].
      split; [done | set_solver]. }
  destruct HS' as [-> Hin].
  destruct (ping_fault srv'); [done|]. by rewrite decide_True.
Qed.

(** Instance of X1: the first run of a session toasts; the second,
    against a server that refuses connections, does not and still
    connects through the cached client. *)
Lemma connected_once_witness :
  startup Demo.up Demo.fresh_session =
    Connected [Toast [Txt "Database connection successful!"]]
      (Session true {["db_connection_success"]}) ∧
  startup Demo.unreachable (Session true {["db_connection_success"]}) =
    Connected [] (Session true {["db_connection_success"]}).
Proof.
  assert (H : startup Demo.up Demo.fresh_session =
    Connected [Toast [Txt "Database connection successful!"]]
      (Session true {["db_connection_success"]})).
  { unfold startup, init_connection. simpl.
    rewrite decide_False by set_solver.
    by rewrite (right_id_L ∅ (∪)). }
  split; [exact H|].
  exact (connected_once Demo.up Demo.unreachable _ _ _ H).
Defined.

(** ** A blank name *)

Lemma app_blank_name E W w :
  truthy (strip (username W)) = false →
  app E W w =
    Next tt
      (World (coll w)
         (screen w ++
            [Header "User";
             Title "TaskMaster Dashboard";
             Markdown [Txt "Enter your full name in the sidebar to begin."];
             Info "Please enter your name in the sidebar to load your tasks.";
             Subheader "Project Overview";
             Metric "Total Tasks" 0; Metric "Completed" 0; Metric "Pending" 0;
             Subheader "Task Status Distribution";
             Info "Add a task to see the status distribution chart.";
             Subheader "Upcoming Deadlines";
             Subheader "Manage Your Tasks";
             Info "No tasks found. Add your first task from the sidebar!"])
         (calls w)).
Proof.
  intros Hu.
  unfold app, sidebar, page_header, fetch_tasks, dashboard, kpi, status_chart,
    deadlines, manage, lift, show, mbind, script_bind, mret, script_ret.
  simpl. rewrite Hu. simpl. by rewrite <- !app_assoc.
Qed.

(** X2.  With a name that is empty or all whitespace the page is
    inert: whatever button the widget state claims and whatever the
    driver would do, the run makes no driver call, leaves the
    collection alone, shows neither the add-task form nor any task
    view, and ends normally with zero counts and the prompts to enter
    a name. *)
Theorem blank_name_disables_page (E : env) (W : widgets) (w : world) :
  all_space (username W) = true →
  app E W w =
    Next tt
      (World (coll w)
         (screen w ++
            [Header "User";
             Title "TaskMaster Dashboard";
             Markdown [Txt "Enter your full name in the sidebar to begin."];
             Info "Please enter your name in the sidebar to load your tasks.";
             Subheader "Project Overview";
             Metric "Total Tasks" 0; Metric "Completed" 0; Metric "Pending" 0;
             Subheader "Task Status Distribution";
             Info "Add a task to see the status distribution chart.";
             Subheader "Upcoming Deadlines";
             Subheader "Manage Your Tasks";
             Info "No tasks found. Add your first task from the sidebar!"])
         (calls w)).
Proof.
  intros Hs. apply app_blank_name. by rewrite truthy_strip, Hs.
Qed.

(** Instance of X2: a name of three spaces, with a Delete claimed. *)
Lemma blank_name_disables_page_witness :
  all_space (username (Demo.nobody (Delete (VOid 1)))) = true ∧
  final (app Sample.find_down (Demo.nobody (Delete (VOid 1))) Sample.blank)
  = World Sample.store
      [Header "User";
       Title "TaskMaster Dashboard";
       Markdown [Txt "Enter your full name in the sidebar to begin."];
       Info "Please enter your name in the sidebar to load your tasks.";
       Subheader "Project Overview";
       Metric "Total Tasks" 0; Metric "Completed" 0; Metric "Pending" 0;
       Subheader "Task Status Distribution";
       Info "Add a task to see the status distribution chart.";
       Subheader "Upcoming Deadlines";
       Subheader "Manage Your Tasks";
       Info "No tasks found. Add your first task from the sidebar!"]
      [].
Proof.
  split; [reflexivity|].
  by rewrite (blank_name_disables_page Sample.find_down
                (Demo.nobody (Delete (VOid 1))) Sample.blank eq_refl).
Defined.

(** ** Rendering without a pressed button *)

(** X3.  A run in which no button is pressed only reads: the
    collection it leaves is the one it found, and its call log holds
    no insert, update or delete. *)
Theorem render_is_read_only (E : env) (W : widgets) (docs : list document) :
  pressed W = NoClick →
  coll (final (run E W docs)) = docs ∧
  Forall (λ c, is_write c = false) (calls (final (run E W docs))).
Proof.
  intros Hp.
  assert (H : coll (final (run E W docs)) = docs ∧
              (Forall (λ c, is_write c = false) [] →
               Forall (λ c, is_write c = false) (calls (final (run E W docs))))).
  { apply (λ H1 H2 H3 H4 H5 H6 H7,
             keeps_app
               (λ w w', coll w' = coll w ∧
                        (Forall (λ c, is_write c = false) (calls w) →
                         Forall (λ c, is_write c = false) (calls w')))
               H1 H2 H3 H4 E W H5 H6 H7 (World docs [] [])).
    - done.
    - intros w1 w2 w3 [Hc1 Hl1] [Hc2 Hl2]. split; [congruence | auto].
    - done.
    - intros E' q f. apply keeps_mongo; intros; simpl;
        (split; [done|]); intros Hl; apply Forall_app; by repeat constructor.
    - intros ? ? ? Hp'. congruence.
    - intros ? ? ? ? Hp'. congruence.
    - intros ? Hp'. congruence. }
  destruct H as [Hc Hl]. split; [done|]. apply Hl. constructor.
Qed.

(** Instance of X3 on Alex's page. *)
Lemma render_is_read_only_witness :
  coll (final (run Sample.quiet (Sample.alex NoClick) Sample.store))
  = Sample.store ∧
  calls (final (run Sample.quiet (Sample.alex NoClick) Sample.store))
  = [CFind ("Username", VStr "Alex") "CreatedAt"].
Proof.
  split; [|by vm_compute].
  apply (render_is_read_only Sample.quiet (Sample.alex NoClick) Sample.store).
  reflexivity.
Defined.

(** ** Evaluating the page *)

Lemma bind_next {A B} (m : script A) (k : A → script B) w a w1 :
  m w = Next a w1 → (m ≫= k) w = k a w1.
Proof. intros H. unfold mbind, script_bind. by rewrite H. Qed.

Lemma quiet_ret {A} (a : A) : quiet (mret a) a.
Proof. intros w. exists []. by rewrite app_nil_r; destruct w. Qed.

Lemma quiet_show e : quiet (show e) tt.
Proof. intros w. by exists [e]. Qed.

Lemma quiet_bind {A B} (m : script A) (k : A → script B) a b :
  quiet m a → quiet (k a) b → quiet (m ≫= k) b.
Proof.
  intros Hm Hk w. destruct (Hm w) as [els Hrun].
  rewrite (bind_next _ _ _ _ _ Hrun).
  destruct (Hk (World (coll w) (screen w ++ els) (calls w))) as [els' Hrun'].
  exists (els ++ els'). rewrite Hrun'. simpl. by rewrite app_assoc.
Qed.

Lemma quiet_page_header W : quiet (page_header W) tt.
Proof.
  unfold page_header. eapply quiet_bind; apply quiet_show.
Qed.

Lemma quiet_kpi all_tasks c :
  count_completed all_tasks = inr c →
  quiet (kpi all_tasks)
    (Z.of_nat (length all_tasks),
     Z.of_nat (length all_tasks) - Z.of_nat c).
Proof.
  intros Hc. unfold kpi. rewrite Hc. unfold lift.
  repeat (eapply quiet_bind; [first [apply quiet_ret | apply quiet_show]|]).
  apply quiet_ret.
Qed.

Lemma quiet_status_chart all_tasks total :
  Forall (λ t : document, is_Some (t !! "Status")) all_tasks →
  quiet (status_chart all_tasks total) tt.
Proof.
  intros Hst. destruct (statuses_ok all_tasks Hst) as [l Hl].
  unfold status_chart. eapply quiet_bind; [apply quiet_show|].
  destruct (0 <? total); [|apply quiet_show].
  rewrite Hl. unfold lift.
  eapply quiet_bind; [apply quiet_ret | apply quiet_show].
Qed.

Lemma quiet_deadlines E W all_tasks c rows :
  count_completed all_tasks = inr c →
  pending_rows all_tasks = inr rows →
  (length rows + c = length all_tasks)%nat →
  quiet (deadlines E W all_tasks
           (Z.of_nat (length all_tasks) - Z.of_nat c)) tt.
Proof.
  intros Hc Hrows Hlen.
  unfold deadlines. eapply quiet_bind; [apply quiet_show|].
  destruct (truthy _); cbn [andb]; [|apply quiet_ret].
  destruct (Z.ltb_spec 0 (Z.of_nat (length all_tasks) - Z.of_nat c));
    [|apply quiet_show].
  unfold pending_df. rewrite Hrows. cbn [mbind raising_bind].
  destruct rows as [|r rows']; [simpl in Hlen; lia|].
  unfold lift, mret, raising_ret.
  eapply quiet_bind; [apply quiet_ret | apply quiet_show].
Qed.

(** Above the task list the page only shows elements, provided every
    fetched document has a status and a title. *)
Lemma dashboard_manage E W all_tasks w :
  Forall (λ t : document, is_Some (t !! "Status") ∧ is_Some (t !! "Task")) all_tasks →
  ∃ els, dashboard E W all_tasks w =
           manage E W all_tasks (World (coll w) (screen w ++ els) (calls w)).
Proof.
  intros Hwf.
  assert (Hst : Forall (λ t : document, is_Some (t !! "Status")) all_tasks).
  { eapply Forall_impl; [exact Hwf|]. by intros t [? _]. }
  destruct (pending_rows_count all_tasks Hwf) as (c & rows & Hc & Hrows & Hlen).
  assert (Hq : quiet (kpi all_tasks ≫= λ '(total_tasks, pending_tasks),
                        status_chart all_tasks total_tasks;;
                        deadlines E W all_tasks pending_tasks) tt).
  { eapply quiet_bind; [by apply quiet_kpi|]. cbn beta iota.
    eapply quiet_bind; [by apply quiet_status_chart|].
    by eapply quiet_deadlines. }
  destruct (Hq w) as [els Hrun]. exists els.
  unfold dashboard. unfold mbind, script_bind in *.
  destruct (kpi all_tasks w) as [[total pending] w1|]; [|done].
  destruct (status_chart all_tasks total w1) as [[] w2|]; [|done].
  destruct (deadlines E W all_tasks pending w2) as [[] w3|]; [|done].
  by injection Hrun as ->.
Qed.

Lemma sidebar_idle E W w :
  truthy (strip (username W)) = true →
  (∀ n p d, pressed W ≠ AddTask n p d) →
  sidebar E W w =
    Next tt (World (coll w)
               (screen w ++ [Header "User"; Header "Add a New Task"])
               (calls w)).
Proof.
  intros Hu Hp. unfold sidebar, show, mbind, script_bind, mret, script_ret.
  rewrite Hu. simpl.
  destruct (pressed W) eqn:Hc; simpl; try by rewrite <- !app_assoc.
  by destruct (Hp task_name task_priority task_due_date).
Qed.

(** ** The status filter *)

Lemma filtered_tasks_filter fs all_tasks :
  Forall (λ t : document, is_Some (t !! "Status")) all_tasks →
  filtered_tasks fs all_tasks = inr (List.filter (status_selected fs) all_tasks).
Proof.
  induction 1 as [|t rest [s Hs] _ IH]; [done|].
  cbn [filtered_tasks List.filter]. unfold getitem, status_selected at 1.
  rewrite Hs, IH. done.
Qed.

Lemma selected_all s :
  selected [Pending; InProgress; Completed] s = true ↔
  ∃ o, s = VStr (status_label o).
Proof.
  split; [apply selected_label|]. intros [o ->].
  unfold selected. apply existsb_exists. exists o.
  split; [destruct o; simpl; tauto | by apply bool_decide_eq_true].
Qed.

(** X4.  When every fetched document has a status, the rows of the
    task list are the fetched documents whose status is among the
    selected options, in fetch order.  So the default selection of all
    three options drops nothing when every status is one of the
    options, and an empty selection gives an empty list even when
    tasks exist: the task list section then shows its heading and
    nothing else, and makes no driver call whatever button is claimed. *)
Theorem status_filter_rows
    (E : env) (W : widgets) (all_tasks : list document) (w : world) :
  Forall (λ t : document, is_Some (t !! "Status")) all_tasks →
  filtered_tasks (filter_status W) all_tasks
    = inr (List.filter (status_selected (filter_status W)) all_tasks) ∧
  (Forall (λ t : document, ∃ o, t !! "Status" = Some (VStr (status_label o)))
     all_tasks →
   filtered_tasks [Pending; InProgress; Completed] all_tasks = inr all_tasks) ∧
  (filter_status W = [] → all_tasks ≠ [] →
   manage E W all_tasks w =
     Next tt (World (coll w) (screen w ++ [Subheader "Manage Your Tasks"])
                (calls w))).
Proof.
  intros Hst. split; [by apply filtered_tasks_filter|]. split.
  - intros Hopt. rewrite filtered_tasks_filter by done. f_equal.
    clear Hst. induction Hopt as [|t rest [o Ho] _ IH]; [done|]. simpl.
    unfold status_selected at 1. rewrite Ho, IH.
    by rewrite (proj2 (selected_all _)) by eauto.
  - intros Hfs Hne. unfold manage.
    destruct all_tasks as [|t rest] eqn:Hall; [done|]. rewrite <- Hall in *.
    rewrite filtered_tasks_filter, Hfs by done.
    replace (List.filter (status_selected []) all_tasks) with (@nil document).
    + by destruct all_tasks.
    + clear. induction all_tasks as [|t' rest' IH]; [done|]. simpl.
      unfold status_selected at 1. by destruct (t' !! "Status").
Qed.

(** Instance of X4 on the sample store with only Completed selected. *)
Lemma status_filter_rows_witness :
  filtered_tasks [Completed] Sample.store = inr [Sample.slides].
Proof.
  destruct (status_filter_rows Sample.quiet
              (Widgets "Alex" [Completed] NoClick) Sample.store Sample.blank)
    as (H1 & _).
  - repeat constructor; by eexists.
  - etransitivity; [exact H1|]. by vm_compute.
Defined.

(** ** Pressing a row's button *)

(** What a row does once its widgets are built. *)
Lemma task_form_row E W (task : document) :
  renderable task →
  status_selected (filter_status W) task = true →
  ∃ id title si pi,
    task !! "_id" = Some id ∧ task !! "Task" = Some title ∧
    ∀ w,
      task_form E W task w =
        match pressed W with
        | Save row n s p =>
            if decide (row = id) then
              update_task E id (updates n s p);;
              show (Toast [Txt "Task updated!"]);; rerun
            else mret tt
        | Delete row =>
            if decide (row = id) then
              delete_task E id;;
              show (Toast [Txt "Task '"; Fmt title; Txt "' deleted."]);; rerun
            else mret tt
        | _ => mret tt
        end (World (coll w) (screen w ++ [TaskForm id title si pi]) (calls w)).
Proof.
  intros ([id Hid] & [title Ht] & [s Hs] & Hprio) Hsel.
  unfold status_selected in Hsel. rewrite Hs in Hsel.
  apply selected_label in Hsel as [o ->].
  destruct (status_index_ok o) as [si Hsi].
  destruct (priority_index_ok task Hprio) as [pi Hpi].
  exists id, title, si, pi. split; [done|]. split; [done|]. intros w.
  unfold task_form, getitem. rewrite Hid, Ht, Hs.
  unfold lift, mbind, script_bind, mret, script_ret.
  cbn -[index get status_label]. by rewrite Hsi, Hpi.
Qed.

Section RowButtons.
Variables (E : env) (W : widgets) (row : value).

Lemma for_each_save name st prio rows :
  pressed W = Save row name st prio →
  faults E OpUpdate = None →
  Forall (λ r, renderable r ∧ status_selected (filter_status W) r = true) rows →
  Exists (λ r : document, r !! "_id" = Some row) rows →
  ∀ w, ∃ els,
    for_each (task_form E W) rows w =
      Halt Rerun
        (World (update_one ("_id", row) (updates name st prio) (coll w))
           (screen w ++ els ++ [Toast [Txt "Task updated!"]])
           (calls w ++ [CUpdate ("_id", row) (updates name st prio)])).
Proof.
  intros Hp Hf Hrows Hex.
  induction Hrows as [|r rows [Hr Hsel] _ IH]; intros w; [by inversion Hex|].
  destruct (task_form_row E W r Hr Hsel) as (id & title & si & pi & Hid & _ & Hrun).
  cbn [for_each]. unfold mbind at 1, script_bind at 1. rewrite Hrun, Hp.
  destruct (decide (row = id)) as [->|Hne].
  - exists [TaskForm id title si pi].
    unfold update_task, mongo, show, rerun, mbind, script_bind.
    rewrite Hf. cbn -[updates]. by rewrite <- !app_assoc.
  - cbn [mret script_ret].
    assert (Hex' : Exists (λ r : document, r !! "_id" = Some row) rows).
    { inversion Hex; subst; [congruence | done]. }
    destruct (IH Hex'
                (World (coll w) (screen w ++ [TaskForm id title si pi]) (calls w)))
      as [els Hrest].
    exists (TaskForm id title si pi :: els). rewrite Hrest. simpl.
    by rewrite <- !app_assoc.
Qed.

Lemma for_each_delete rows :
  pressed W = Delete row →
  faults E OpDelete = None →
  Forall (λ r, renderable r ∧ status_selected (filter_status W) r = true) rows →
  Exists (λ r : document, r !! "_id" = Some row) rows →
  ∀ w, ∃ els title,
    for_each (task_form E W) rows w =
      Halt Rerun
        (World (delete_one ("_id", row) (coll w))
           (screen w ++ els ++ [Toast [Txt "Task '"; Fmt title; Txt "' deleted."]])
           (calls w ++ [CDelete ("_id", row)])).
Proof.
  intros Hp Hf Hrows Hex.
  induction Hrows as [|r rows [Hr Hsel] _ IH]; intros w; [by inversion Hex|].
  destruct (task_form_row E W r Hr Hsel) as (id & title & si & pi & Hid & _ & Hrun).
  cbn [for_each]. unfold mbind at 1, script_bind at 1. rewrite Hrun, Hp.
  destruct (decide (row = id)) as [->|Hne].
  - exists [TaskForm id title si pi], title.
    unfold delete_task, mongo, show, rerun, mbind, script_bind.
    rewrite Hf. cbn. by rewrite <- !app_assoc.
  - cbn [mret script_ret].
    assert (Hex' : Exists (λ r : document, r !! "_id" = Some row) rows).
    { inversion Hex; subst; [congruence | done]. }
    destruct (IH Hex'
                (World (coll w) (screen w ++ [TaskForm id title si pi]) (calls w)))
      as (els & title' & Hrest).
    exists (TaskForm id title si pi :: els), title'. rewrite Hrest. simpl.
    by rewrite <- !app_assoc.
Qed.

(** The page up to the row loop, for a click that is not the add
    form's, a name that is not blank and a query that does not fail. *)
Lemma run_to_rows (docs : list document) (t : document) :
  (∀ n p d, pressed W ≠ AddTask n p d) →
  truthy (strip (username W)) = true →
  faults E OpFind = None →
  Forall (λ d, owner_is (strip (username W)) d → renderable d) docs →
  t ∈ docs → owner_is (strip (username W)) t →
  status_selected (filter_status W) t = true →
  ∃ els rows,
    run E W docs =
      for_each (task_form E W) rows
        (World docs els [CFind (owner_query W) "CreatedAt"]) ∧
    Forall (λ r, renderable r ∧ status_selected (filter_status W) r = true) rows ∧
    t ∈ rows.
Proof.
  intros Hp Hu Hf Hren Ht Ho Hsel.
  set (all_tasks := sort_desc "CreatedAt" (find (owner_query W) docs)).
  assert (Hall : ∀ d, d ∈ all_tasks ↔ d ∈ docs ∧ owner_is (strip (username W)) d).
  { intros d. apply listing_elem. }
  assert (Hren' : Forall renderable all_tasks).
  { apply Forall_forall. intros d [Hd Hod]%Hall.
    rewrite Forall_forall in Hren. by apply Hren. }
  assert (Hwf : Forall (λ t : document,
                          is_Some (t !! "Status") ∧ is_Some (t !! "Task")) all_tasks).
  { eapply Forall_impl; [exact Hren' | apply renderable_fields]. }
  assert (Hst : Forall (λ t : document, is_Some (t !! "Status")) all_tasks).
  { eapply Forall_impl; [exact Hwf|]. by intros ? [? _]. }
  unfold run, app.
  rewrite (bind_next _ _ _ _ _ (sidebar_idle E W _ Hu Hp)).
  destruct (quiet_page_header W
              (World docs ([] ++ [Header "User"; Header "Add a New Task"]) []))
    as [els1 H1].
  rewrite (bind_next _ _ _ _ _ H1).
  unfold mbind, script_bind. rewrite fetch_tasks_cases, Hu, Hf.
  cbn [coll screen calls]. fold all_tasks.
  destruct (dashboard_manage E W all_tasks
              (World docs (([] ++ [Header "User"; Header "Add a New Task"]) ++ els1)
                 ([] ++ [CFind (owner_query W) "CreatedAt"])) Hwf)
    as [els2 H2].
  rewrite H2. unfold manage.
  assert (Hin : t ∈ all_tasks) by (by apply Hall).
  destruct all_tasks as [|t0 rest] eqn:Hl; [by apply elem_of_nil in Hin|].
  rewrite <- Hl in *.
  rewrite filtered_tasks_filter by done.
  unfold lift, show, mbind, script_bind, mret, script_ret. cbn [coll screen calls].
  eexists _, _. split; [reflexivity|]. split.
  - apply Forall_forall. intros r [Hr Hrs]%list_elem_of_In%filter_In.
    apply list_elem_of_In in Hr. split; [|done].
    rewrite Forall_forall in Hren'. by apply Hren'.
  - apply list_elem_of_In, filter_In. split; [by apply list_elem_of_In | done].
Qed.
End RowButtons.

Lemma sample_store_renderable : Forall renderable Sample.store.
Proof.
  constructor; [|constructor; [|constructor; [|constructor]]].
  - split; [by exists (VOid 1)|]. split; [by exists (VStr "Write report")|].
    split; [by exists (VStr "Pending")|]. right. by exists High.
  - split; [by exists (VOid 2)|]. split; [by exists (VStr "Slides")|].
    split; [by exists (VStr "Completed")|]. right. by exists Low.
  - split; [by exists (VOid 3)|]. split; [by exists (VStr "Groceries")|].
    split; [by exists (VStr "In Progress")|]. right. by exists Medium.
Qed.

(** X5.  Pressing Save on a row that is on the page is carried out.
    For a name that is not blank, the owner's documents renderable, the
    task among them with a status that passes the filter, and neither
    the query nor the update failing: the run makes exactly two driver
    calls, the fetch and one update by the row's [_id] with the
    stripped title and the chosen status and priority; the collection
    it leaves is the result of that update; the "updated" toast is the
    last thing shown; and the run ends by [st.rerun()], not by drawing
    the remaining rows. *)
Theorem save_is_applied
    (E : env) (W : widgets) (docs : list document) (t : document)
    (row : value) (name : string) (st : status_opt) (prio : priority_opt) :
  pressed W = Save row name st prio →
  truthy (strip (username W)) = true →
  faults E OpFind = None →
  faults E OpUpdate = None →
  Forall (λ d, owner_is (strip (username W)) d → renderable d) docs →
  t ∈ docs → owner_is (strip (username W)) t →
  t !! "_id" = Some row →
  status_selected (filter_status W) t = true →
  ∃ shown,
    run E W docs =
      Halt Rerun
        (World (update_one ("_id", row) (updates name st prio) docs)
           (shown ++ [Toast [Txt "Task updated!"]])
           [CFind (owner_query W) "CreatedAt";
            CUpdate ("_id", row) (updates name st prio)]).
Proof.
  intros Hp Hu Hf Hfu Hren Ht Ho Hid Hsel.
  destruct (run_to_rows E W docs t) as (els & rows & Hrun & Hrows & Hin);
    try done.
  { intros ? ? ?. congruence. }
  destruct (for_each_save E W row name st prio rows Hp Hfu Hrows) with
    (w := World docs els [CFind (owner_query W) "CreatedAt"]) as [els' Hloop].
  { apply Exists_exists. eauto. }
  exists (els ++ els'). rewrite Hrun, Hloop. simpl. by rewrite <- !app_assoc.
Qed.

(** Instance of X5: Alex marks the report as completed. *)
Lemma save_is_applied_witness :
  ∃ shown,
    run Sample.quiet (Sample.alex (Save (VOid 1) " Write report " Completed High))
      Sample.store =
      Halt Rerun
        (World [updates " Write report " Completed High ∪ Sample.report;
                Sample.slides; Sample.groceries]
           (shown ++ [Toast [Txt "Task updated!"]])
           [CFind ("Username", VStr "Alex") "CreatedAt";
            CUpdate ("_id", VOid 1) (updates " Write report " Completed High)]).
Proof.
  destruct (save_is_applied Sample.quiet
              (Sample.alex (Save (VOid 1) " Write report " Completed High))
              Sample.store Sample.report (VOid 1) " Write report " Completed High)
    as [shown Hrun]; try reflexivity.
  - eapply Forall_impl; [apply sample_store_renderable | auto].
  - left.
  - exists shown. exact Hrun.
Defined.

(** X6.  Pressing Delete on a row that is on the page is carried out.
    Under the same conditions as for Save (the delete call not
    failing): the run makes exactly two driver calls, the fetch and one
    delete by the row's [_id]; the collection it leaves is the result
    of that delete; the "deleted" toast, naming a title, is the last
    thing shown; and the run ends by [st.rerun()]. *)
Theorem delete_is_applied
    (E : env) (W : widgets) (docs : list document) (t : document) (row : value) :
  pressed W = Delete row →
  truthy (strip (username W)) = true →
  faults E OpFind = None →
  faults E OpDelete = None →
  Forall (λ d, owner_is (strip (username W)) d → renderable d) docs →
  t ∈ docs → owner_is (strip (username W)) t →
  t !! "_id" = Some row →
  status_selected (filter_status W) t = true →
  ∃ shown title,
    run E W docs =
      Halt Rerun
        (World (delete_one ("_id", row) docs)
           (shown ++ [Toast [Txt "Task '"; Fmt title; Txt "' deleted."]])
           [CFind (owner_query W) "CreatedAt"; CDelete ("_id", row)]).
Proof.
  intros Hp Hu Hf Hfd Hren Ht Ho Hid Hsel.
  destruct (run_to_rows E W docs t) as (els & rows & Hrun & Hrows & Hin);
    try done.
  { intros ? ? ?. congruence. }
  destruct (for_each_delete E W row rows Hp Hfd Hrows) with
    (w := World docs els [CFind (owner_query W) "CreatedAt"])
    as (els' & title & Hloop).
  { apply Exists_exists. eauto. }
  exists (els ++ els'), title. rewrite Hrun, Hloop. simpl.
  by rewrite <- !app_assoc.
Qed.

(** Instance of X6: Alex deletes the slides task. *)
Lemma delete_is_applied_witness :
  ∃ shown title,
    run Sample.quiet (Sample.alex (Delete (VOid 2))) Sample.store =
      Halt Rerun
        (World [Sample.report; Sample.groceries]
           (shown ++ [Toast [Txt "Task '"; Fmt title; Txt "' deleted."]])
           [CFind ("Username", VStr "Alex") "CreatedAt";
            CDelete ("_id", VOid 2)]).
Proof.
  destruct (delete_is_applied Sample.quiet (Sample.alex (Delete (VOid 2)))
              Sample.store Sample.slides (VOid 2))
    as (shown & title & Hrun); try reflexivity.
  - eapply Forall_impl; [apply sample_store_renderable | auto].
  - right. left.
  - exists shown, title. exact Hrun.
Defined.

(** ** A write ends the run *)

Section WriteThenRerun.
Variables (E : env) (W : widgets).
Variable change : list document → list document.
Hypothesis not_add : ∀ n p d, pressed W ≠ AddTask n p d.
Hypothesis on_save : ∀ row n s p,
  pressed W = Save row n s p → change = update_one ("_id", row) (updates n s p).
Hypothesis on_delete : ∀ row,
  pressed W = Delete row → change = delete_one ("_id", row).

Lemma wtr_ret {A} (a : A) : writes_then_reruns change (mret a).
Proof. by intros w. Qed.

Lemma wtr_show e : writes_then_reruns change (show e).
Proof. by intros w. Qed.

Lemma wtr_lift {A} (r : raising A) : writes_then_reruns change (lift r).
Proof. intros w. destruct r; simpl; auto. Qed.

Lemma wtr_bind {A B} (m : script A) (k : A → script B) :
  writes_then_reruns change m → (∀ a, writes_then_reruns change (k a)) →
  writes_then_reruns change (m ≫= k).
Proof.
  intros Hm Hk w. specialize (Hm w). unfold mbind, script_bind.
  destruct (m w) as [a w1|h w1]; [|done].
  specialize (Hk a w1). rewrite Hm in Hk. exact Hk.
Qed.

Lemma wtr_for_each {A} (body : A → script unit) l :
  (∀ x, writes_then_reruns change (body x)) →
  writes_then_reruns change (for_each body l).
Proof.
  intros Hb. induction l as [|x l IH]; simpl; [apply wtr_ret|].
  apply wtr_bind; [apply Hb | intros _; apply IH].
Qed.

Lemma wtr_sidebar : writes_then_reruns change (sidebar E W).
Proof.
  unfold sidebar. apply wtr_bind; [apply wtr_show | intros _].
  destruct (truthy _); [|apply wtr_ret].
  apply wtr_bind; [apply wtr_show | intros _].
  destruct (pressed W) eqn:Hp; try apply wtr_ret.
  by destruct (not_add task_name task_priority task_due_date).
Qed.

Lemma wtr_fetch_tasks : writes_then_reruns change (fetch_tasks E W).
Proof.
  intros w. rewrite fetch_tasks_cases.
  destruct (truthy _); [destruct (faults E OpFind)|]; done.
Qed.

Lemma wtr_task_form task : writes_then_reruns change (task_form E W task).
Proof.
  unfold task_form.
  repeat (apply wtr_bind; [first [apply wtr_lift | apply wtr_show] | intros ?]).
  destruct (pressed W) eqn:Hp; try apply wtr_ret;
    case_decide; subst; try apply wtr_ret; intros w.
  - rewrite (on_save _ _ _ _ eq_refl).
    unfold update_task, mongo, show, rerun, mbind, script_bind.
    destruct (faults E OpUpdate); simpl; auto.
  - rewrite (on_delete _ eq_refl).
    unfold delete_task, mongo, show, rerun, mbind, script_bind.
    destruct (faults E OpDelete); simpl; auto.
Qed.

Lemma wtr_dashboard all_tasks : writes_then_reruns change (dashboard E W all_tasks).
Proof.
  unfold dashboard. apply wtr_bind.
  { unfold kpi.
    repeat (apply wtr_bind; [first [apply wtr_lift | apply wtr_show] | intros ?]).
    apply wtr_ret. }
  intros [total pending].
  apply wtr_bind; [|intros _; apply wtr_bind; [|intros _]].
  - unfold status_chart. apply wtr_bind; [apply wtr_show | intros _].
    destruct (0 <? total); [|apply wtr_show].
    apply wtr_bind; [apply wtr_lift | intros ?; apply wtr_show].
  - unfold deadlines. apply wtr_bind; [apply wtr_show | intros _].
    destruct (truthy _ && _).
    + apply wtr_bind; [apply wtr_lift | intros ?; apply wtr_show].
    + destruct (truthy _); [apply wtr_show | apply wtr_ret].
  - unfold manage. apply wtr_bind; [apply wtr_show | intros _].
    destruct all_tasks; [apply wtr_show|].
    apply wtr_bind; [apply wtr_lift | intros ?].
    apply wtr_for_each, wtr_task_form.
Qed.

Lemma wtr_app : writes_then_reruns change (app E W).
Proof.
  unfold app.
  apply wtr_bind; [apply wtr_sidebar | intros _].
  apply wtr_bind; [|intros _].
  { unfold page_header. apply wtr_bind; [apply wtr_show | intros _; apply wtr_show]. }
  apply wtr_bind; [apply wtr_fetch_tasks | apply wtr_dashboard].
Qed.
End WriteThenRerun.

Lemma delete_one_cases row docs :
  delete_one ("_id", row) docs = docs ∨
  ∃ l1 d l2, docs = l1 ++ d :: l2 ∧ d !! "_id" = Some row ∧
             Forall (λ e : document, e !! "_id" ≠ Some row) l1 ∧
             delete_one ("_id", row) docs = l1 ++ l2.
Proof.
  induction docs as [|d docs IH]; [by left|]. simpl. unfold matches.
  case_bool_decide as Hd; simpl in *.
  - right. exists [], d, docs. by repeat split.
  - destruct IH as [->|(l1 & e & l2 & -> & He & Hl1 & ->)]; [by left|].
    right. exists (d :: l1), e, l2. repeat split; try done. by constructor.
Qed.

(** X7.  In a run whose pressed button is the Delete of the row keyed
    [row], whatever else happens, the collection the run leaves is
    either the one it found or that one without a single document, the
    first whose [_id] is [row]; every other document stays, in place.
    If a document was removed, the run ended by [st.rerun()]. *)
Theorem delete_removes_one
    (E : env) (W : widgets) (docs : list document) (row : value) :
  pressed W = Delete row →
  (coll (final (run E W docs)) = docs ∨
   ∃ l1 d l2,
     docs = l1 ++ d :: l2 ∧ d !! "_id" = Some row ∧
     Forall (λ e : document, e !! "_id" ≠ Some row) l1 ∧
     coll (final (run E W docs)) = l1 ++ l2) ∧
  (coll (final (run E W docs)) ≠ docs → ∃ w', run E W docs = Halt Rerun w').
Proof.
  intros Hp.
  assert (H := wtr_app E W (delete_one ("_id", row))
                 (λ n p d, ltac:(congruence)) (λ r n s p, ltac:(congruence))
                 (λ r Hr, ltac:(congruence)) (World docs [] [])).
  unfold run. destruct (app E W (World docs [] [])) as [[] w'|h w']; simpl in *.
  - split; [by left | done].
  - destruct H as [->|[-> ->]]; [split; [by left | done]|].
    split; [apply delete_one_cases | eauto].
Qed.

(** Instance of X7: deleting the slides task from the sample store. *)
Lemma delete_removes_one_witness :
  coll (final (run Sample.quiet (Sample.alex (Delete (VOid 2))) Sample.store))
  = [Sample.report; Sample.groceries] ∧
  ∃ w', run Sample.quiet (Sample.alex (Delete (VOid 2))) Sample.store
        = Halt Rerun w'.
Proof.
  assert (Hc : coll (final (run Sample.quiet (Sample.alex (Delete (VOid 2)))
                              Sample.store))
               = [Sample.report; Sample.groceries]) by (by vm_compute).
  split; [exact Hc|].
  apply (delete_removes_one Sample.quiet (Sample.alex (Delete (VOid 2)))
           Sample.store (VOid 2) eq_refl).
  rewrite Hc. intros H. by apply (f_equal length) in H.
Defined.

(** X8.  Unless the pressed button is the add form's, a run that
    changes the collection ends by [st.rerun()]: after a save or a
    delete the script never goes on drawing rows from the list it
    fetched before the write. *)
Theorem write_ends_run (E : env) (W : widgets) (docs : list document) :
  (∀ n p d, pressed W ≠ AddTask n p d) →
  coll (final (run E W docs)) ≠ docs →
  ∃ w', run E W docs = Halt Rerun w'.
Proof.
  intros Hp Hne.
  set (change := match pressed W with
                 | Save row n s p => update_one ("_id", row) (updates n s p)
                 | Delete row => delete_one ("_id", row)
                 | _ => λ docs, docs
                 end).
  assert (H := wtr_app E W change Hp
                 (λ r n s p Hc, ltac:(subst change; by rewrite Hc))
                 (λ r Hc, ltac:(subst change; by rewrite Hc)) (World docs [] [])).
  unfold run in *. destruct (app E W (World docs [] [])) as [[] w'|h w']; simpl in *.
  - done.
  - destruct H as [?|[-> _]]; [done | eauto].
Qed.

(** Instance of X8: the save of the report reruns. *)
Lemma write_ends_run_witness :
  ∃ w', run Sample.quiet (Sample.alex (Save (VOid 1) "Report" Completed Low))
          Sample.store = Halt Rerun w'.
Proof.
  apply (write_ends_run Sample.quiet
           (Sample.alex (Save (VOid 1) "Report" Completed Low)) Sample.store).
  - intros n p d. discriminate.
  - intros H. vm_compute in H. discriminate.
Defined.

(** ** Stripped strings *)

Lemma lstrip_no_leading s : no_leading_space (lstrip s).
Proof.
  induction s as [|c s IH]; simpl; [done|].
  destruct (is_space c) eqn:Hc; [done|]. simpl. done.
Qed.

Lemma lstrip_fixed s : no_leading_space s → lstrip s = s.
Proof. destruct s as [|c s]; simpl; [done|]. by intros ->. Qed.

Lemma rstrip_no_leading s : no_leading_space s → no_leading_space (rstrip s).
Proof.
  destruct s as [|c s]; simpl; [done|]. intros Hc.
  destruct (rstrip s); [by rewrite Hc|done].
Qed.

Lemma rstrip_idem s : rstrip (rstrip s) = rstrip s.
Proof.
  induction s as [|c s IH]; simpl; [done|].
  destruct (rstrip s) as [|c' r] eqn:Hr.
  - destruct (is_space c) eqn:Hc; simpl; [done|]. by rewrite Hc.
  - change (rstrip (String c (String c' r))) with
      (match rstrip (String c' r) with
       | EmptyString => if is_space c then EmptyString else String c EmptyString
       | r' => String c r'
       end).
    by rewrite IH.
Qed.

Lemma rstrip_no_trailing s : no_trailing_space (rstrip s).
Proof.
  unfold no_trailing_space.
  induction s as [|c s IH]; simpl; [done|].
  destruct (rstrip s) as [|c' r] eqn:Hr.
  - destruct (is_space c) eqn:Hc; simpl; done.
  - change (last_char (String c (String c' r))) with (last_char (String c' r)).
    exact IH.
Qed.

Lemma strip_idem s : strip (strip s) = strip s.
Proof.
  unfold strip.
  rewrite (lstrip_fixed (rstrip (lstrip s)))
    by apply rstrip_no_leading, lstrip_no_leading.
  apply rstrip_idem.
Qed.

(** X9.  Every title the script writes, when a task is created and
    when a row is saved, is the entered text stripped: it has no
    whitespace at either end, and stripping it again changes nothing,
    so saving a row without touching its title writes the title it
    already had. *)
Theorem written_titles_stripped
    (E : env) (W : widgets) (name : string)
    (prio : priority_opt) (due : Z) (st : status_opt) :
  task_data E W name prio due !! "Task" = Some (VStr (strip name)) ∧
  updates name st prio !! "Task" = Some (VStr (strip name)) ∧
  no_leading_space (strip name) ∧
  no_trailing_space (strip name) ∧
  updates (strip name) st prio = updates name st prio.
Proof.
  split; [|split; [|split; [|split]]].
  - unfold task_data. by simplify_map_eq.
  - unfold updates. by simplify_map_eq.
  - apply rstrip_no_leading, lstrip_no_leading.
  - apply rstrip_no_trailing.
  - unfold updates. by rewrite strip_idem.
Qed.

(** ** What the script writes keeps the documents in shape *)

Lemma schema_renderable d : schema d → renderable d.
Proof.
  intros ([n Hn] & _ & (s & Hs & _) & [o Ho] & [p Hp] & _).
  split; [by eexists|]. split; [by eexists|]. split; [by eexists|].
  right. by exists p.
Qed.

Lemma schema_task_data E W n name prio due :
  truthy (strip (username W)) = true →
  schema (<["_id" := VOid n]> (task_data E W name prio due)).
Proof.
  intros Hu. unfold schema, task_data.
  split; [exists n; by simplify_map_eq|].
  split; [exists (strip (username W)); split; [by simplify_map_eq|];
          split; [done | apply strip_idem]|].
  split; [exists (strip name); split; [by simplify_map_eq | apply strip_idem]|].
  split; [exists Pending; by simplify_map_eq|].
  split; [exists prio; by simplify_map_eq|].
  split; [exists due; by simplify_map_eq|].
  exists (utcnow E). by simplify_map_eq.
Qed.

Lemma updates_keeps (k : string) name st prio (d : document) :
  k ∉ mutable_fields → (updates name st prio ∪ d) !! k = d !! k.
Proof. intros Hk. apply lookup_union_r. by apply updates_other_fields. Qed.

Lemma not_mutable (k : string) :
  k ≠ "Task" → k ≠ "Status" → k ≠ "Priority" → k ∉ mutable_fields.
Proof.
  intros H1 H2 H3. unfold mutable_fields.
  repeat (apply not_elem_of_cons; split; [done|]). apply not_elem_of_nil.
Qed.

Lemma schema_updates name st prio d :
  schema d → schema (updates name st prio ∪ d).
Proof.
  intros (Hid & Ho & _ & _ & _ & Hdue & Hcr). unfold schema.
  rewrite (updates_keeps "_id"), (updates_keeps "Username"),
    (updates_keeps "DueDate"), (updates_keeps "CreatedAt")
    by (by apply not_mutable).
  split; [done|]. split; [done|].
  split; [exists (strip name); split; [|apply strip_idem];
          apply lookup_union_Some_l; unfold updates; by simplify_map_eq|].
  split; [exists st; apply lookup_union_Some_l; unfold updates; by simplify_map_eq|].
  split; [exists prio; apply lookup_union_Some_l; unfold updates; by simplify_map_eq|].
  by split.
Qed.

Lemma delete_one_subseteq q docs (x : document) :
  x ∈ delete_one q docs → x ∈ docs.
Proof.
  induction docs as [|d docs IH]; simpl; [done|].
  destruct (matches q d); [by right|].
  intros [->|Hx]%elem_of_cons; [left | right; by apply IH].
Qed.

Lemma Forall_delete_one (P : document → Prop) q docs :
  Forall P docs → Forall P (delete_one q docs).
Proof.
  rewrite !Forall_forall. intros H x Hx. by apply H, (delete_one_subseteq q).
Qed.

Lemma Forall_update_one (P : document → Prop) q upd docs :
  (∀ d, P d → P (upd ∪ d)) →
  Forall P docs → Forall P (update_one q upd docs).
Proof.
  intros Hupd. induction 1 as [|d docs Hd Hdocs IH]; simpl; [constructor|].
  destruct (matches q d); constructor; auto.
Qed.

Section RunInvariant.
Variable P : document → Prop.
Hypothesis P_insert : ∀ E W n name prio due,
  truthy (strip (username W)) = true →
  P (<["_id" := VOid n]> (task_data E W name prio due)).
Hypothesis P_update : ∀ name st prio d, P d → P (updates name st prio ∪ d).

(** A property of documents that the insert establishes and the update
    keeps holds of the whole collection after a run if it did
    before. *)
Lemma run_keeps_Forall E W docs :
  Forall P docs → Forall P (coll (final (run E W docs))).
Proof.
  destruct (truthy (strip (username W))) eqn:Hu.
  2:{ unfold run. by rewrite app_blank_name. }
  apply (λ H1 H2 H3 H4 H5 H6 H7,
           keeps_app (λ w w', Forall P (coll w) → Forall P (coll w'))
             H1 H2 H3 H4 E W H5 H6 H7 (World docs [] [])).
  - done.
  - intros w1 w2 w3 H12 H23 H. auto.
  - done.
  - intros E' q f. apply keeps_mongo; intros; simpl; done.
  - intros name prio due _ _. apply keeps_mongo; intros w; simpl; [done|].
    intros _ H. unfold insert_one. apply Forall_app. split; [done|].
    constructor; [by apply P_insert | constructor].
  - intros row name st prio _. apply keeps_mongo; intros w; simpl; [done|].
    intros _ H. apply Forall_update_one; [apply P_update | done].
  - intros row _. apply keeps_mongo; intros w; simpl; [done|].
    intros _ H. by apply Forall_delete_one.
Qed.

Lemma runs_keep_Forall docs inputs :
  Forall P docs → Forall P (runs docs inputs).
Proof.
  revert docs. induction inputs as [|[E W] inputs IH]; intros docs H; [done|].
  simpl. by apply IH, run_keeps_Forall.
Qed.
End RunInvariant.

(** X10.  The script keeps its documents in shape.  If every document
    of the collection has an object id, a non-empty stripped owner, a
    stripped title, a status and a priority from the option lists, a
    due date at midnight and a creation time, then so has every
    document after any sequence of runs, whatever is entered or
    pressed in them and whichever driver calls fail. *)
Theorem runs_keep_schema (docs : list document) (inputs : list (env * widgets)) :
  Forall schema docs → Forall schema (runs docs inputs).
Proof.
  apply runs_keep_Forall.
  - intros. by apply schema_task_data.
  - intros. by apply schema_updates.
Qed.

(** Instance of X10: the documents of a session that started from the
    empty collection. *)
Lemma runs_keep_schema_witness :
  length (runs [] Demo.session_inputs) = 2%nat ∧
  Forall schema (runs [] Demo.session_inputs).
Proof.
  split; [by vm_compute|].
  apply (runs_keep_schema [] Demo.session_inputs). constructor.
Defined.

(** ** Object ids stay distinct *)

Lemma oid_of_lt_fresh docs n :
  n ∈ oid_of <$> docs → (n < fresh_oid docs)%N.
Proof.
  intros (d & -> & Hd)%list_elem_of_fmap.
  apply oid_of_le_max in Hd. unfold fresh_oid. lia.
Qed.

Lemma ids_distinct_insert_one data docs :
  ids_distinct docs → ids_distinct (insert_one data docs).
Proof.
  unfold ids_distinct, insert_one. intros H.
  rewrite fmap_app. apply NoDup_app. split; [done|]. split.
  - intros n Hn [->|[]%elem_of_nil]%elem_of_cons.
    apply oid_of_lt_fresh in Hn. unfold oid_of in Hn.
    rewrite lookup_insert_eq in Hn. lia.
  - apply NoDup_singleton.
Qed.

Lemma oid_of_updates name st prio d :
  oid_of (updates name st prio ∪ d) = oid_of d.
Proof.
  unfold oid_of. by rewrite updates_keeps by (by apply not_mutable).
Qed.

Lemma ids_update_one q name st prio docs :
  oid_of <$> update_one q (updates name st prio) docs = oid_of <$> docs.
Proof.
  induction docs as [|d docs IH]; [done|]. cbn [update_one].
  destruct (matches q d); rewrite !fmap_cons.
  - by rewrite oid_of_updates.
  - by rewrite IH.
Qed.

Lemma ids_distinct_delete_one q docs :
  ids_distinct docs → ids_distinct (delete_one q docs).
Proof.
  unfold ids_distinct. induction docs as [|d docs IH]; [done|].
  cbn [delete_one]. rewrite fmap_cons. intros [Hd Hdocs]%NoDup_cons.
  destruct (matches q d); [done|].
  rewrite fmap_cons. apply NoDup_cons. split; [|by apply IH].
  intros (e & He & Hin)%list_elem_of_fmap. apply Hd.
  apply list_elem_of_fmap. exists e. split; [done|].
  by apply (delete_one_subseteq q).
Qed.

Lemma run_keeps_ids E W docs :
  ids_distinct docs → ids_distinct (coll (final (run E W docs))).
Proof.
  apply (λ H1 H2 H3 H4 H5 H6 H7,
           keeps_app (λ w w', ids_distinct (coll w) → ids_distinct (coll w'))
             H1 H2 H3 H4 E W H5 H6 H7 (World docs [] [])).
  - done.
  - intros w1 w2 w3 H12 H23 H. auto.
  - done.
  - intros E' q f. apply keeps_mongo; intros; simpl; done.
  - intros name prio due _ _. apply keeps_mongo; intros w; simpl; [done|].
    intros _. apply ids_distinct_insert_one.
  - intros row name st prio _. apply keeps_mongo; intros w; simpl; [done|].
    intros _ H. unfold ids_distinct. by rewrite ids_update_one.
  - intros row _. apply keeps_mongo; intros w; simpl; [done|].
    intros _. apply ids_distinct_delete_one.
Qed.

Lemma runs_keep_ids docs inputs :
  ids_distinct docs → ids_distinct (runs docs inputs).
Proof.
  revert docs. induction inputs as [|[E W] inputs IH]; intros docs H; [done|].
  simpl. by apply IH, run_keeps_ids.
Qed.

(** X11.  Object ids stay distinct.  If no two documents of the
    collection have the same id, then neither have any two after any
    sequence of runs: an inserted task gets an id above all present
    ones, a save leaves ids alone and a delete only removes. *)
Theorem runs_keep_ids_distinct (docs : list document) (inputs : list (env * widgets)) :
  ids_distinct docs → ids_distinct (runs docs inputs).
Proof. apply runs_keep_ids. Qed.

(** Instance of X11 on the sample session. *)
Lemma runs_keep_ids_distinct_witness :
  oid_of <$> runs [] Demo.session_inputs = [2%N; 3%N] ∧
  ids_distinct (runs [] Demo.session_inputs).
Proof.
  split; [by vm_compute|].
  apply (runs_keep_ids_distinct [] Demo.session_inputs). constructor.
Defined.

(** ** No exception from the documents *)

Lemma guarded_ret {A} (a : A) : guarded (mret a).
Proof. intros w e w' H. discriminate. Qed.

Lemma guarded_show e : guarded (show e).
Proof. intros w e' w' H. discriminate. Qed.

Lemma guarded_rerun : guarded rerun.
Proof. intros w e w' H. discriminate. Qed.

Lemma guarded_bind {A B} (m : script A) (k : A → script B) :
  guarded m → (∀ a, guarded (k a)) → guarded (m ≫= k).
Proof.
  intros Hm Hk w e w' H. unfold mbind, script_bind in H.
  destruct (m w) as [a w1|h w1] eqn:Hrun.
  - exact (Hk a w1 e w' H).
  - injection H as -> ->. exact (Hm w e w' Hrun).
Qed.

Lemma guarded_mongo {A} E o c (f : list document → A * list document) :
  guarded (mongo E o c f).
Proof.
  intros w e w' H. unfold mongo in H.
  destruct (faults E o) as [msg|]; [|done].
  exists msg. congruence.
Qed.

Lemma guarded_for_each {A} (body : A → script unit) (P : A → Prop) l :
  (∀ x, P x → guarded (body x)) → Forall P l → guarded (for_each body l).
Proof.
  intros Hb. induction 1 as [|x l Hx _ IH]; simpl; [apply guarded_ret|].
  apply guarded_bind; [by apply Hb | intros _; apply IH].
Qed.

Lemma guarded_sidebar E W : guarded (sidebar E W).
Proof.
  unfold sidebar. apply guarded_bind; [apply guarded_show | intros _].
  destruct (truthy _); [|apply guarded_ret].
  apply guarded_bind; [apply guarded_show | intros _].
  destruct (pressed W); try apply guarded_ret.
  destruct (negb _); [apply guarded_show|].
  apply guarded_bind; [apply guarded_mongo | intros _; apply guarded_show].
Qed.

Lemma guarded_task_form E W (task : document) :
  renderable task →
  status_selected (filter_status W) task = true →
  guarded (task_form E W task).
Proof.
  intros Hr Hsel.
  destruct (task_form_row E W task Hr Hsel) as (id & title & si & pi & _ & _ & Hrun).
  intros w. rewrite Hrun.
  destruct (pressed W); try apply guarded_ret; case_decide; try apply guarded_ret.
  - apply guarded_bind; [apply guarded_mongo | intros _].
    apply guarded_bind; [apply guarded_show | intros _; apply guarded_rerun].
  - apply guarded_bind; [apply guarded_mongo | intros _].
    apply guarded_bind; [apply guarded_show | intros _; apply guarded_rerun].
Qed.

Lemma guarded_dashboard E W all_tasks :
  Forall renderable all_tasks → guarded (dashboard E W all_tasks).
Proof.
  intros Hr w.
  assert (Hwf : Forall (λ t : document,
                          is_Some (t !! "Status") ∧ is_Some (t !! "Task")) all_tasks).
  { eapply Forall_impl; [exact Hr | apply renderable_fields]. }
  assert (Hst : Forall (λ t : document, is_Some (t !! "Status")) all_tasks).
  { eapply Forall_impl; [exact Hwf|]. by intros ? [? _]. }
  destruct (dashboard_manage E W all_tasks w Hwf) as [els ->].
  unfold manage. apply guarded_bind; [apply guarded_show | intros _].
  destruct all_tasks as [|t rest] eqn:Hl; [apply guarded_show|].
  rewrite <- Hl in *. rewrite filtered_tasks_filter by done.
  change (guarded (for_each (task_form E W)
                     (List.filter (status_selected (filter_status W)) all_tasks))).
  apply (guarded_for_each _
           (λ r, renderable r ∧ status_selected (filter_status W) r = true)).
  - intros r [Hren Hsel]. by apply guarded_task_form.
  - apply Forall_forall. intros r [Hin Hsel]%list_elem_of_In%filter_In.
    split; [|done]. rewrite Forall_forall in Hr. by apply Hr, list_elem_of_In.
Qed.

Lemma run_driver_only E W docs :
  Forall (λ d, owner_is (strip (username W)) d → renderable d) docs →
  driver_only (run E W docs).
Proof.
  intros Hdocs. unfold run, app.
  set (P := λ d : document, owner_is (strip (username W)) d → renderable d) in *.
  assert (Hside : Forall P (coll (final (sidebar E W (World docs [] []))))).
  { apply (λ H1 H2 H3 H5 H6 H7,
             keeps_sidebar (λ w w', Forall P (coll w) → Forall P (coll w'))
               H1 H2 H3 E W H5 H6 H7 (World docs [] [])); try done.
    - intros w1 w2 w3 H12 H23 H. auto.
    - intros name prio due _ _. apply keeps_mongo; intros w; simpl; [done|].
      intros _ H. unfold insert_one. apply Forall_app. split; [done|].
      constructor; [|constructor]. intros _. unfold task_data.
      split; [eexists; by simplify_map_eq|].
      split; [eexists; by simplify_map_eq|].
      split; [eexists; by simplify_map_eq|].
      right. exists prio. by simplify_map_eq.
    - intros row name st prio _. apply keeps_mongo; intros w; simpl; [done|].
      intros _ H. apply Forall_update_one; [|done].
      intros d Hd Ho. unfold owner_is in Ho.
      rewrite updates_keeps in Ho by (by apply not_mutable).
      destruct (Hd Ho) as (Hid & _).
      split; [by rewrite updates_keeps by (by apply not_mutable)|].
      split; [eexists; apply lookup_union_Some_l; unfold updates;
              by simplify_map_eq|].
      split; [eexists; apply lookup_union_Some_l; unfold updates;
              by simplify_map_eq|].
      right. exists prio. apply lookup_union_Some_l. unfold updates.
      by simplify_map_eq.
    - intros row _. apply keeps_mongo; intros w; simpl; [done|].
      intros _ H. by apply Forall_delete_one. }
  intros e w' H. unfold mbind at 1, script_bind at 1 in H.
  destruct (sidebar E W (World docs [] [])) as [[] w1|h w1] eqn:Hs.
  2:{ apply (guarded_sidebar E W (World docs [] []) e w'). by rewrite Hs. }
  simpl in Hside.
  destruct (quiet_page_header W w1) as [els1 H1].
  rewrite (bind_next _ _ _ _ _ H1) in H.
  unfold mbind, script_bind in H. rewrite fetch_tasks_cases in H.
  cbn [coll screen calls] in H.
  destruct (truthy _);
    [destruct (faults E OpFind)|];
    try exact (guarded_dashboard E W [] (List.Forall_nil _) _ e w' H).
  revert H. apply guarded_dashboard.
  apply Forall_forall. intros d [Hd Ho]%listing_elem.
  rewrite Forall_forall in Hside. by apply Hside.
Qed.

(** X12.  The script's own exceptions come only from documents it
    cannot draw.  If every document of the current owner has [_id],
    [Task] and [Status] and a priority that is missing or one of the
    options, then no run raises [KeyError] or [ValueError], whatever is
    pressed: a run ends normally, by [st.rerun()], or with an exception
    of the driver. *)
Theorem only_driver_exceptions (E : env) (W : widgets) (docs : list document) :
  Forall (λ d, owner_is (strip (username W)) d → renderable d) docs →
  ∀ e w, run E W docs = Halt (Uncaught e) w → ∃ msg, e = PyMongoError msg.
Proof. apply run_driver_only. Qed.

(** Instance of X12: with the delete call failing, pressing Delete on
    the sample store ends the run with the driver's exception. *)
Lemma only_driver_exceptions_witness :
  ∃ e w,
    run Demo.delete_down (Sample.alex (Delete (VOid 2))) Sample.store
    = Halt (Uncaught e) w ∧
    ∃ msg, e = PyMongoError msg.
Proof.
  destruct (run Demo.delete_down (Sample.alex (Delete (VOid 2))) Sample.store)
    as [[] w|[|e] w] eqn:Hrun.
  - vm_compute in Hrun. discriminate.
  - vm_compute in Hrun. discriminate.
  - exists e, w. split; [done|].
    apply (only_driver_exceptions Demo.delete_down
             (Sample.alex (Delete (VOid 2))) Sample.store
             (Forall_impl _ _ _ sample_store_renderable (λ d H _, H)) e w Hrun).
Defined.

(** X13.  From an empty collection the script cannot get into trouble
    with its own data.  After any sequence of runs that started from
    the empty collection, whatever was entered, pressed or failed in
    them, every document is in shape, ids are distinct, and the next
    run raises no [KeyError] or [ValueError]. *)
Theorem session_from_empty
    (inputs : list (env * widgets)) (E : env) (W : widgets) :
  Forall schema (runs [] inputs) ∧
  ids_distinct (runs [] inputs) ∧
  ∀ e w, run E W (runs [] inputs) = Halt (Uncaught e) w →
         ∃ msg, e = PyMongoError msg.
Proof.
  assert (Hs : Forall schema (runs [] inputs)).
  { apply runs_keep_Forall; [| |constructor].
    - intros. by apply schema_task_data.
    - intros. by apply schema_updates. }
  split; [done|]. split; [apply runs_keep_ids; constructor|].
  apply run_driver_only.
  eapply Forall_impl; [exact Hs|]. intros d Hd _. by apply schema_renderable.
Qed.

(** ** The metrics *)

Lemma count_completed_filter all_tasks :
  Forall (λ t : document, is_Some (t !! "Status")) all_tasks →
  count_completed all_tasks = inr (length (List.filter is_completed all_tasks)).
Proof.
  induction 1 as [|t rest [s Hs] _ IH]; [done|].
  cbn [count_completed List.filter]. unfold getitem, is_completed at 1.
  rewrite Hs, IH. cbn [mbind raising_bind mret raising_ret].
  destruct (decide (s = VStr "Completed")) as [->|Hne].
  - by rewrite bool_decide_eq_true_2.
  - by rewrite bool_decide_eq_false_2 by congruence.
Qed.

Lemma count_completed_statuses all_tasks c :
  count_completed all_tasks = inr c →
  Forall (λ t : document, is_Some (t !! "Status")) all_tasks.
Proof.
  revert c. induction all_tasks as [|t rest IH]; intros c; [constructor|].
  cbn [count_completed]. unfold getitem.
  destruct (t !! "Status") as [s|] eqn:Hs; [|done].
  cbn [mbind raising_bind].
  destruct (count_completed rest) as [|n]; [done|]. intros _.
  constructor; [by eexists | by eapply IH].
Qed.

(** X14.  When every fetched document has a status, the three metrics
    are the number of fetched tasks, the number whose status is
    Completed, and the number whose status is anything else: "Pending"
    counts the tasks in progress too, and the three add up. *)
Theorem kpi_counts (all_tasks : list document) (w : world) :
  Forall (λ t : document, is_Some (t !! "Status")) all_tasks →
  let total := length all_tasks in
  let completed := length (List.filter is_completed all_tasks) in
  let pending := length (List.filter (λ t, negb (is_completed t)) all_tasks) in
  (completed + pending = total)%nat ∧
  kpi all_tasks w =
    Next (Z.of_nat total, Z.of_nat pending)
      (World (coll w)
         (screen w ++
            [Subheader "Project Overview";
             Metric "Total Tasks" (Z.of_nat total);
             Metric "Completed" (Z.of_nat completed);
             Metric "Pending" (Z.of_nat pending)])
         (calls w)).
Proof.
  intros Hst total completed pending.
  assert (Hsum : (completed + pending = total)%nat) by apply filter_length.
  split; [done|].
  unfold kpi. rewrite count_completed_filter by done.
  fold total completed.
  unfold lift, show, mbind, script_bind, mret, script_ret. simpl.
  replace (Z.of_nat total - Z.of_nat completed) with (Z.of_nat pending) by lia.
  by rewrite <- !app_assoc.
Qed.

(** Instance of X14: of the three sample tasks one is completed; the
    task in progress counts as pending. *)
Lemma kpi_counts_witness :
  ∃ w', kpi Sample.store Sample.blank = Next (3, 2) w' ∧
        screen w' = [Subheader "Project Overview"; Metric "Total Tasks" 3;
                     Metric "Completed" 1; Metric "Pending" 2].
Proof.
  destruct (kpi_counts Sample.store Sample.blank) as [_ Hrun].
  - repeat constructor; by eexists.
  - eexists. split; [exact Hrun|]. by vm_compute.
Defined.

(** ** The deadlines table on the script's own documents *)






(** ** Completing a task *)

Lemma filter_length_perm {A} (f : A → bool) l l' :
  Permutation l l' → length (List.filter f l) = length (List.filter f l').
Proof.
  induction 1 as [|x l l' _ IH|x y l|l l' l'' _ IH1 _ IH2]; simpl.
  - done.
  - destruct (f x); simpl; congruence.
  - destruct (f x), (f y); done.
  - congruence.
Qed.

Lemma update_one_split id upd docs (t : document) :
  t ∈ docs → t !! "_id" = Some id →
  ∃ l1 d l2,
    docs = l1 ++ d :: l2 ∧ d ∈ docs ∧ d !! "_id" = Some id ∧
    update_one ("_id", id) upd docs = l1 ++ (upd ∪ d) :: l2.
Proof.
  intros Ht Hid. induction Ht as [t docs|t e docs Ht IH]; simpl; unfold matches.
  - rewrite bool_decide_eq_true_2 by done.
    exists [], t, docs. split; [done|]. split; [left|]. done.
  - case_bool_decide as He; simpl in *.
    + exists [], e, docs. split; [done|]. split; [left|]. done.
    + destruct (IH Hid) as (l1 & d & l2 & -> & Hd & Hdid & ->).
      exists (e :: l1), d, l2. split; [done|]. split; [by right|]. done.
Qed.

Lemma find_cons_match q d docs :
  d !! q.1 = Some q.2 → find q (d :: docs) = d :: find q docs.
Proof. intros H. unfold find, matches. simpl. by rewrite bool_decide_eq_true_2. Qed.

(** X16.  Saving a task of the owner as Completed that was not
    completed before moves exactly one task between the counts of the
    next fetch: the owner's listing has the same length, and its
    number of completed tasks is one higher, so "Completed" goes up by
    one and "Pending" down by one. *)
Theorem completing_moves_one_count
    (o : string) (docs : list document) (t : document) (row : value)
    (name : string) (prio : priority_opt) (c : nat) :
  t ∈ docs → t !! "_id" = Some row →
  (∀ d, d ∈ docs → d !! "_id" = Some row →
        owner_is o d ∧ ∃ s, d !! "Status" = Some s ∧ s ≠ VStr "Completed") →
  count_completed (listing o docs) = inr c →
  let docs' := update_one ("_id", row) (updates name Completed prio) docs in
  length (listing o docs') = length (listing o docs) ∧
  count_completed (listing o docs') = inr (S c).
Proof.
  intros Ht Hid Hrow Hc docs'.
  destruct (update_one_split row (updates name Completed prio) docs t Ht Hid)
    as (l1 & d & l2 & Hdocs & Hd & Hdid & Hupd).
  destruct (Hrow d Hd Hdid) as (Hod & s & Hs & Hne).
  set (d' := updates name Completed prio ∪ d) in *.
  assert (Hod' : owner_is o d').
  { unfold owner_is, d'. by rewrite updates_keeps by (by apply not_mutable). }
  assert (Hs' : d' !! "Status" = Some (VStr "Completed")).
  { apply lookup_union_Some_l. unfold updates. by simplify_map_eq. }
  assert (Hfind : find ("Username", VStr o) docs
                  = find ("Username", VStr o) l1 ++ d :: find ("Username", VStr o) l2).
  { by rewrite Hdocs, find_app, find_cons_match. }
  assert (Hfind' : find ("Username", VStr o) docs'
                   = find ("Username", VStr o) l1 ++ d' :: find ("Username", VStr o) l2).
  { unfold docs'. by rewrite Hupd, find_app, find_cons_match. }
  assert (Hperm : ∀ l, Permutation (listing o l) (find ("Username", VStr o) l)).
  { intros l. apply sort_by_perm. }
  assert (Hst : Forall (λ t : document, is_Some (t !! "Status"))
                  (find ("Username", VStr o) docs)).
  { rewrite <- Hperm. by eapply count_completed_statuses. }
  assert (Hc' : c = length (List.filter is_completed (find ("Username", VStr o) docs))).
  { rewrite <- (filter_length_perm _ _ _ (Hperm docs)).
    rewrite count_completed_filter in Hc by (by rewrite Hperm). congruence. }
  split.
  - rewrite (Permutation_length (Hperm docs')), (Permutation_length (Hperm docs)).
    rewrite Hfind, Hfind', !length_app. done.
  - rewrite count_completed_filter.
    + f_equal. rewrite (filter_length_perm _ _ _ (Hperm docs')), Hc'.
      assert (Hd0 : is_completed d = false).
      { unfold is_completed. rewrite Hs. apply bool_decide_eq_false_2. congruence. }
      assert (Hd1 : is_completed d' = true).
      { unfold is_completed. rewrite Hs'. by apply bool_decide_eq_true_2. }
      rewrite Hfind, Hfind', !List.filter_app, !length_app. cbn [List.filter].
      rewrite Hd0, Hd1. simpl. lia.
    + rewrite Hperm, Hfind'. rewrite Hfind in Hst.
      apply Forall_app in Hst as [H1 [_ H2]%Forall_cons].
      apply Forall_app. split; [done|]. constructor; [by eexists | done].
Qed.

(** Instance of X16: Alex completes the report. *)
Lemma completing_moves_one_count_witness :
  count_completed (listing "Alex" Sample.store) = inr 1%nat ∧
  count_completed
    (listing "Alex"
       (update_one ("_id", VOid 1) (updates "Write report" Completed High)
          Sample.store)) = inr 2%nat.
Proof.
  assert (Hc : count_completed (listing "Alex" Sample.store) = inr 1%nat)
    by (by vm_compute).
  split; [exact Hc|].
  apply (completing_moves_one_count "Alex" Sample.store Sample.report (VOid 1)
           "Write report" High 1); [left | done | | exact Hc].
  intros d [->|[->|[->|[]%elem_of_nil]%elem_of_cons]%elem_of_cons]%elem_of_cons Hid;
    try (by vm_compute in Hid).
  split; [done|]. exists (VStr "Pending"). split; [done | discriminate].
Defined.

(** ** Deleting and the listings *)

Lemma delete_one_elem n docs (t : document) :
  ids_distinct docs →
  t ∈ delete_one ("_id", VOid n) docs ↔ t ∈ docs ∧ t !! "_id" ≠ Some (VOid n).
Proof.
  unfold ids_distinct. induction docs as [|d docs IH]; cbn [delete_one].
  { intros _. split; [by intros ?%elem_of_nil | by intros [?%elem_of_nil _]]. }
  rewrite fmap_cons. intros [Hd Hdocs]%NoDup_cons. unfold matches.
  case_bool_decide as Hm; simpl in Hm.
  - split.
    + intros Ht. split; [by right|]. intros Hid. apply Hd.
      apply list_elem_of_fmap. exists t. split; [|done].
      unfold oid_of. by rewrite Hm, Hid.
    + intros [[->|Ht]%elem_of_cons Hid]; [done | done].
  - rewrite !elem_of_cons, (IH Hdocs). split.
    + intros [->|[Ht Hid]]; [split; [by left | done] | split; [by right | done]].
    + intros [[->|Ht] Hid]; [by left | right; done].
Qed.

Lemma find_delete_one_other q q' docs :
  Forall (λ d : document, matches q d = true → matches q' d = false) docs →
  find q' (delete_one q docs) = find q' docs.
Proof.
  induction 1 as [|d docs Hd _ IH]; [done|]. cbn [delete_one].
  destruct (matches q d) eqn:Hm.
  - unfold find. simpl. by rewrite Hd.
  - unfold find in *. simpl. by rewrite IH.
Qed.

(** X17.  With distinct ids, deleting the task with a given id removes
    exactly that task from its owner's listing: a document is listed
    afterwards if and only if it was listed before and has another id.
    The listing of an owner who does not own the deleted task is the
    same list as before. *)
Theorem delete_and_listings (docs : list document) (n : N) (o : string) :
  ids_distinct docs →
  (∀ t, t ∈ listing o (delete_one ("_id", VOid n) docs) ↔
        t ∈ listing o docs ∧ t !! "_id" ≠ Some (VOid n)) ∧
  (Forall (λ d : document, d !! "_id" = Some (VOid n) → ¬ owner_is o d) docs →
   listing o (delete_one ("_id", VOid n) docs) = listing o docs).
Proof.
  intros Hids. split.
  - intros t. unfold listing. rewrite !listing_elem, delete_one_elem by done.
    tauto.
  - intros Hother. unfold listing. f_equal. apply find_delete_one_other.
    eapply Forall_impl; [exact Hother|]. intros d Hd Hm. unfold matches in *.
    apply bool_decide_eq_true in Hm. apply bool_decide_eq_false. by apply Hd.
Qed.

(** Instance of X17: Sam's listing is untouched by the deletion of
    Alex's slides; Alex's loses them. *)
Lemma delete_and_listings_witness :
  listing "Sam" (delete_one ("_id", VOid 2) Sample.store) = listing "Sam" Sample.store ∧
  listing "Alex" (delete_one ("_id", VOid 2) Sample.store) = [Sample.report].
Proof.
  split; [|by vm_compute].
  apply (delete_and_listings Sample.store 2 "Sam").
  - unfold ids_distinct. apply (bool_decide_unpack _). by vm_compute.
  - repeat (constructor;
            [intros Hid Ho; vm_compute in Hid, Ho; congruence|]).
    constructor.
Defined.

(** ** The status distribution *)

Lemma count_for_tally v u counts :
  count_for u (tally v counts)
  = (count_for u counts + if decide (v = u) then 1 else 0)%nat.
Proof.
  induction counts as [|[x n] rest IH]; cbn [tally count_for].
  - destruct (decide (v = u)); lia.
  - destruct (decide (x = v)) as [->|Hxv]; cbn [count_for].
    + destruct (decide (v = u)); lia.
    + destruct (decide (x = u)) as [->|Hxu]; [|exact IH].
      rewrite decide_False by congruence. lia.
Qed.

Lemma keys_tally v counts :
  NoDup counts.*1 → NoDup (tally v counts).*1 ∧
  ∀ u, u ∈ (tally v counts).*1 → u = v ∨ u ∈ counts.*1.
Proof.
  induction counts as [|[x n] rest IH]; cbn [tally].
  - intros _. split; [apply NoDup_singleton|].
    intros u [->|[]%elem_of_nil]%elem_of_cons. by left.
  - rewrite fmap_cons. intros [Hx Hrest]%NoDup_cons. cbn in Hx.
    destruct (decide (x = v)) as [->|Hxv]; rewrite fmap_cons; cbn.
    + split; [by apply NoDup_cons | by right].
    + destruct (IH Hrest) as [Hnd Hkeys]. split.
      * apply NoDup_cons. split; [|done].
        intros [->|Hin]%Hkeys; [done | by apply Hx].
      * intros u [->|Hu]%elem_of_cons; [right; left|].
        destruct (Hkeys u Hu) as [->|?]; [by left | right; by right].
Qed.

Lemma positive_tally v counts :
  Forall (λ p : value * nat, (0 < p.2)%nat) counts →
  Forall (λ p : value * nat, (0 < p.2)%nat) (tally v counts).
Proof.
  induction 1 as [|[x n] rest Hn Hrest IH]; cbn [tally].
  - repeat constructor.
  - destruct (decide (x = v)); constructor; simpl in *; first [lia | done].
Qed.

Lemma sum_tally v counts :
  sum_list_with snd (tally v counts) = S (sum_list_with snd counts).
Proof.
  induction counts as [|[x n] rest IH]; cbn [tally]; [done|].
  destruct (decide (x = v)); simpl; [done|]. rewrite IH. lia.
Qed.

Lemma tally_all l acc :
  NoDup acc.*1 →
  Forall (λ p : value * nat, (0 < p.2)%nat) acc →
  let r := foldl (λ acc v, tally v acc) acc l in
  NoDup r.*1 ∧
  Forall (λ p : value * nat, (0 < p.2)%nat) r ∧
  (∀ u, count_for u r = (count_for u acc + occurrences u l)%nat) ∧
  sum_list_with snd r = (sum_list_with snd acc + length l)%nat.
Proof.
  revert acc. induction l as [|v l IH]; intros acc Hnd Hpos; cbn [foldl].
  - repeat split; try done; intros; unfold occurrences; simpl; lia.
  - destruct (IH (tally v acc)) as (H1 & H2 & H3 & H4).
    + by apply keys_tally.
    + by apply positive_tally.
    + split; [done|]. split; [done|]. split.
      * intros u. rewrite H3, count_for_tally. unfold occurrences.
        cbn [List.filter]. destruct (decide (v = u)) as [->|Hne].
        -- rewrite bool_decide_eq_true_2 by done. simpl. lia.
        -- rewrite bool_decide_eq_false_2 by done. lia.
      * rewrite H4, sum_tally. simpl. lia.
Qed.

Lemma count_for_elem v n counts :
  NoDup counts.*1 → (v, n) ∈ counts → count_for v counts = n.
Proof.
  induction counts as [|[x m] rest IH]; [by intros _ ?%elem_of_nil|].
  rewrite fmap_cons. intros [Hx Hrest]%NoDup_cons [[= <- <-]|Hin]%elem_of_cons;
    cbn [count_for].
  - by rewrite decide_True.
  - rewrite decide_False; [by apply IH|]. intros ->. apply Hx. cbn.
    apply list_elem_of_fmap. by exists (v, n).
Qed.

Lemma count_for_listed v counts :
  (0 < count_for v counts)%nat → (v, count_for v counts) ∈ counts.
Proof.
  induction counts as [|[x m] rest IH]; cbn [count_for]; [lia|].
  destruct (decide (x = v)) as [->|Hne]; [left|]. intros H. right. by apply IH.
Qed.

Lemma StronglySorted_weaken {A} (R R' : A → A → Prop) l :
  (∀ a b, R a b → R' a b) → StronglySorted R l → StronglySorted R' l.
Proof.
  intros HR. induction 1 as [|x l _ IH Hx]; constructor; [done|].
  eapply Forall_impl; [exact Hx | apply HR].
Qed.

(** X18.  The status distribution has one slice per status that
    occurs among the fetched tasks and none for a status that does not:
    no status is listed twice, a status is listed with a count exactly
    when that count is positive and is the number of tasks with that
    status, the slices come in non-increasing order of count, and the
    counts add up to the number of tasks. *)
Theorem chart_slices (statuses : list value) :
  NoDup (value_counts statuses).*1 ∧
  (∀ v n, (v, n) ∈ value_counts statuses ↔
          (0 < n)%nat ∧ n = occurrences v statuses) ∧
  StronglySorted (λ a b : value * nat, (b.2 ≤ a.2)%nat) (value_counts statuses) ∧
  sum_list_with snd (value_counts statuses) = length statuses.
Proof.
  destruct (tally_all statuses []) as (Hnd & Hpos & Hcount & Hsum);
    [constructor | constructor |].
  set (r := foldl (λ acc v, tally v acc) [] statuses) in *.
  assert (Hperm : Permutation (value_counts statuses) r) by apply sort_by_perm.
  split; [by rewrite Hperm|]. split; [|split].
  - intros v n. rewrite Hperm. split.
    + intros Hin. split.
      * rewrite Forall_forall in Hpos. apply (Hpos _ Hin).
      * rewrite <- (count_for_elem v n r Hnd Hin). apply Hcount.
    + intros [Hn ->]. specialize (Hcount v). simpl in Hcount.
      rewrite <- Hcount. apply count_for_listed. lia.
  - eapply StronglySorted_weaken;
      [|apply (sort_by_strongly_sorted (λ a b : value * nat, (b.2 <=? a.2)%nat))].
    + intros a b H. by apply Nat.leb_le.
    + intros a b H. apply Nat.leb_le. apply Nat.leb_gt in H. lia.
    + intros a b c H1%Nat.leb_le H2%Nat.leb_le. apply Nat.leb_le. lia.
  - rewrite Hperm, Hsum. simpl. lia.
Qed.

(** ** Submitting the add-task form *)

Section AddRun.
Variables (E : env) (W : widgets).
Variables (name : string) (prio : priority_opt) (due : Z).
Hypothesis add_pressed : pressed W = AddTask name prio due.

Local Ltac same :=
  repeat first
    [ apply keeps_ret; done
    | apply keeps_show; done
    | apply keeps_lift; done
    | apply keeps_bind; [intros ? ? ?; unfold same_coll; congruence | | intros ?] ].

Lemma after_add_task_form task : keeps same_coll (task_form E W task).
Proof. unfold task_form. same. rewrite add_pressed. same. Qed.

Lemma after_add_dashboard all_tasks : keeps same_coll (dashboard E W all_tasks).
Proof.
  unfold dashboard, kpi, status_chart, deadlines, manage. same.
  destruct a as [total pending]. same.
  - destruct (0 <? total); same.
  - destruct (truthy _ && _); same. destruct (truthy _); same.
  - destruct all_tasks; same.
    apply keeps_for_each; [done | intros ? ? ?; unfold same_coll; congruence|].
    apply after_add_task_form.
Qed.

Lemma after_add_page w :
  coll (final ((page_header W ≫= λ _,
                fetch_tasks E W ≫= λ all_tasks, dashboard E W all_tasks) w))
  = coll w.
Proof.
  revert w. change (keeps same_coll (page_header W ≫= λ _,
                     fetch_tasks E W ≫= λ all_tasks, dashboard E W all_tasks)).
  apply keeps_bind; [intros ? ? ?; unfold same_coll; congruence | | intros _].
  { unfold page_header. same. }
  apply keeps_bind; [intros ? ? ?; unfold same_coll; congruence | |].
  - intros w. unfold same_coll. rewrite fetch_tasks_cases.
    destruct (truthy _); [destruct (faults E OpFind)|]; done.
  - apply after_add_dashboard.
Qed.

Lemma add_run_coll docs :
  coll (final (run E W docs)) =
    if truthy (strip (username W)) && negb (all_space name)
       && bool_decide (faults E OpInsert = None)
    then insert_one (task_data E W name prio due) docs
    else docs.
Proof.
  assert (Hside :
    (truthy (strip (username W)) && negb (all_space name) = true ∧
     ∃ msg, faults E OpInsert = Some msg ∧
            ∃ w1, sidebar E W (World docs [] []) = Halt (Uncaught (PyMongoError msg)) w1
                  ∧ coll w1 = docs) ∨
    ∃ w1, sidebar E W (World docs [] []) = Next tt w1 ∧
          coll w1 = if truthy (strip (username W)) && negb (all_space name)
                       && bool_decide (faults E OpInsert = None)
                    then insert_one (task_data E W name prio due) docs
                    else docs).
  { assert (Hblank : truthy (strip name) = negb (all_space name))
      by apply truthy_strip.
    unfold sidebar, insert_task, mongo, show, mbind, script_bind, mret, script_ret.
    rewrite add_pressed, Hblank.
    destruct (truthy (strip (username W))); cbn.
    2:{ right. eexists. split; reflexivity. }
    destruct (all_space name); cbn.
    { right. eexists. split; reflexivity. }
    destruct (faults E OpInsert) as [msg|]; cbn.
    - left. split; [done|]. exists msg. split; [done|].
      eexists. split; reflexivity.
    - right. eexists. split; reflexivity. }
  unfold run, app.
  destruct Hside as [(Hacc & msg & Hf & w1 & Hrun & Hcoll)|(w1 & Hrun & Hcoll)].
  - unfold mbind at 1, script_bind at 1. rewrite Hrun. cbn [final].
    rewrite Hcoll, Hacc, Hf. cbn [andb]. by rewrite bool_decide_eq_false_2.
  - rewrite (bind_next _ _ _ _ _ Hrun). cbn beta.
    by rewrite after_add_page.
Qed.
End AddRun.

(** X19.  A run whose pressed button is the add form's either appends
    one document to the collection or leaves the collection as it is;
    it never changes or removes a document that was there.  It appends
    exactly when the name is not blank, the title is not blank and the
    insert call does not fail.  There is no check for duplicates:
    under these conditions, submitting the same form in two runs
    appends two documents. *)
Theorem add_run_outcome
    (E : env) (W : widgets) (docs : list document)
    (name : string) (prio : priority_opt) (due : Z) :
  pressed W = AddTask name prio due →
  let data := task_data E W name prio due in
  let accepted := truthy (strip (username W)) && negb (all_space name)
                  && bool_decide (faults E OpInsert = None) in
  coll (final (run E W docs)) =
    (if accepted then docs ++ [<["_id" := VOid (fresh_oid docs)]> data] else docs) ∧
  (accepted = true →
   ∃ first second,
     runs docs [(E, W); (E, W)] = docs ++ [first; second] ∧
     first !! "_id" ≠ second !! "_id" ∧
     ∀ k, k ≠ "_id" → first !! k = data !! k ∧ second !! k = data !! k).
Proof.
  intros Hp data accepted.
  assert (Hrun : ∀ l, coll (final (run E W l)) =
            if accepted then l ++ [<["_id" := VOid (fresh_oid l)]> data] else l).
  { intros l. by rewrite (add_run_coll E W name prio due Hp). }
  split; [apply Hrun|]. intros Hacc.
  cbn [runs]. rewrite !Hrun, Hacc.
  set (first := <["_id" := VOid (fresh_oid docs)]> data).
  set (second := <["_id" := VOid (fresh_oid (docs ++ [first]))]> data).
  exists first, second. split; [by rewrite <- app_assoc|]. split.
  - unfold first, second. rewrite !lookup_insert_eq. intros [= Heq].
    assert (Hlt : (fresh_oid docs < fresh_oid (docs ++ [first]))%N).
    { apply oid_of_lt_fresh. apply list_elem_of_fmap. exists first.
      split; [|set_solver]. unfold oid_of, first. by rewrite lookup_insert_eq. }
    lia.
  - intros k Hk. unfold first, second. by rewrite !lookup_insert_ne.
Qed.

(** Instance of X19: Alex submits the same form twice. *)
Lemma add_run_outcome_witness :
  length (runs Sample.store
            [(Sample.quiet, Sample.alex (AddTask "Slides" Low 19876));
             (Sample.quiet, Sample.alex (AddTask "Slides" Low 19876))])
  = 5%nat.
Proof.
  destruct (add_run_outcome Sample.quiet
              (Sample.alex (AddTask "Slides" Low 19876)) Sample.store
              "Slides" Low 19876 eq_refl) as [_ Htwice].
  destruct (Htwice eq_refl) as (first & second & -> & _).
  by rewrite length_app.
Defined.
